(** * mwgp: the WireGuard obfuscation codec and the client mangler

    A shallow embedding of [WireGuardObfuscator] (Initialize, Obfuscate,
    Deobfuscate, modifyHashMaskForWireGuardHeaderConflict) and of
    [Client.manglePacket] / one turn of [Client.Start], followed by the
    properties the specification states about them.

    Conventions.
    - A Go [int] or [byte] is a [Z]; a byte slice or array is a [list Z].
    - A run-time panic (index or slice bounds out of range, integer division
      by zero) is [None] in the [option] monad; so is running out of loop
      fuel, which the theorems exclude by proving that a result is returned.
    - Go indexes with [int]: the helpers of [Module Go] index lists with [Z]. *)

From Stdlib Require Import ZArith Lia String Ascii.
From stdpp Require Import base option list.

Local Open Scope Z_scope.

(** ** Go slices, indexed by [int] *)
Module Go.

(** [b[i]], panics unless [0 <= i < len(b)]. *)
Definition index (b : list Z) (i : Z) : option Z :=
  if 0 <=? i then b !! Z.to_nat i else None.

(** [b[i] = v], panics unless [0 <= i < len(b)]. *)
Definition store (b : list Z) (i v : Z) : option (list Z) :=
  if (0 <=? i) && (i <? Z.of_nat (length b)) then Some (<[Z.to_nat i := v]> b)
  else None.

(** [b[lo:hi]], panics unless [0 <= lo <= hi <= len(b)] (the operand is an
    array, or a slice whose capacity is its length). *)
Definition slice (b : list Z) (lo hi : Z) : option (list Z) :=
  if (0 <=? lo) && (lo <=? hi) && (hi <=? Z.of_nat (length b))
  then Some (take (Z.to_nat (hi - lo)) (drop (Z.to_nat lo) b))
  else None.

(** Writing through the slice [b[lo:hi]]: the slice shares the array, so the
    array holds [new] at [lo..hi) afterwards. [new] has the slice's length. *)
Definition write_back (b : list Z) (lo hi : Z) (new : list Z) : list Z :=
  take (Z.to_nat lo) b ++ new ++ drop (Z.to_nat hi) b.

(** [copy(dst, src)]: copies [min(len(dst), len(src))] elements. *)
Definition copy (dst src : list Z) : list Z :=
  take (length dst) src ++ drop (length src) dst.

(** [byte(x)] for an integer [x]. *)
Definition byte (x : Z) : Z := x mod 256.

End Go.

(** ** github.com/cespare/xxhash/v2

    [Digest] is the streaming XXH64 state (seed 0). It is kept as the bytes
    written so far; [Sum64] hashes them, which is what the library's running
    state computes. *)
Module xxhash.

Definition mask64 (x : Z) : Z := x mod 2 ^ 64.

Definition prime1 : Z := 11400714785074694791.
Definition prime2 : Z := 14029467366897019727.
Definition prime3 : Z := 1609587929392839161.
Definition prime4 : Z := 9650029242287828579.
Definition prime5 : Z := 2870177450012600261.

Definition rol (r x : Z) : Z :=
  mask64 (Z.lor (Z.shiftl x r) (Z.shiftr x (64 - r))).

Definition round (acc input : Z) : Z :=
  mask64 (rol 31 (mask64 (acc + input * prime2)) * prime1).

Definition mergeRound (acc val : Z) : Z :=
  mask64 (Z.lxor acc (round 0 val) * prime1 + prime4).

(** Little-endian load of the first [n] bytes of [b]. *)
Fixpoint le (n : nat) (b : list Z) : Z :=
  match n, b with
  | S n, x :: b => x + 256 * le n b
  | _, _ => 0
  end.

(** The 32-byte stripes: four lanes, eight bytes each. *)
Fixpoint stripes (fuel : nat) (v : Z * Z * Z * Z) (b : list Z) : (Z * Z * Z * Z) * list Z :=
  match fuel with
  | O => (v, b)
  | S fuel =>
      if (32 <=? length b)%nat then
        let '(v1, v2, v3, v4) := v in
        stripes fuel
          (round v1 (le 8 b), round v2 (le 8 (drop 8 b)),
           round v3 (le 8 (drop 16 b)), round v4 (le 8 (drop 24 b)))
          (drop 32 b)
      else (v, b)
  end.

(** The tail: 8-byte words, then one 4-byte word, then single bytes. *)
Fixpoint tail8 (fuel : nat) (h : Z) (b : list Z) : Z * list Z :=
  match fuel with
  | O => (h, b)
  | S fuel =>
      if (8 <=? length b)%nat then
        tail8 fuel (mask64 (rol 27 (Z.lxor h (round 0 (le 8 b))) * prime1 + prime4)) (drop 8 b)
      else (h, b)
  end.

Definition tail4 (h : Z) (b : list Z) : Z * list Z :=
  if (4 <=? length b)%nat then
    (mask64 (rol 23 (Z.lxor h (mask64 (le 4 b * prime1))) * prime2 + prime3), drop 4 b)
  else (h, b).

Fixpoint tail1 (h : Z) (b : list Z) : Z :=
  match b with
  | [] => h
  | x :: b => tail1 (mask64 (rol 11 (Z.lxor h (mask64 (x * prime5))) * prime1)) b
  end.

Definition avalanche (h : Z) : Z :=
  let h := Z.lxor h (Z.shiftr h 33) in
  let h := mask64 (h * prime2) in
  let h := Z.lxor h (Z.shiftr h 29) in
  let h := mask64 (h * prime3) in
  Z.lxor h (Z.shiftr h 32).

Definition Sum64 (written : list Z) : Z :=
  let total := Z.of_nat (length written) in
  let '((v1, v2, v3, v4), rest) :=
    stripes (length written) (mask64 (prime1 + prime2), prime2, 0, mask64 (- prime1)) written in
  let h :=
    if 32 <=? total then
      let h := mask64 (rol 1 v1 + rol 7 v2 + rol 12 v3 + rol 18 v4) in
      mergeRound (mergeRound (mergeRound (mergeRound h v1) v2) v3) v4
    else mask64 (v3 + prime5) in
  let h := mask64 (h + total) in
  let '(h, rest) := tail8 (length rest) h rest in
  let '(h, rest) := tail4 h rest in
  avalanche (tail1 h rest).

End xxhash.

(** ** crypto/sha256 *)
Module sha256.

Definition mask32 (x : Z) : Z := x mod 2 ^ 32.

Definition rotr (r x : Z) : Z :=
  mask32 (Z.lor (Z.shiftr x r) (Z.shiftl x (32 - r))).

(** The round constants (cube roots of the first 64 primes), in decimal. *)
Definition K : list Z :=
  [
    1116352408; 1899447441; 3049323471; 3921009573;
    961987163; 1508970993; 2453635748; 2870763221;
    3624381080; 310598401; 607225278; 1426881987;
    1925078388; 2162078206; 2614888103; 3248222580;
    3835390401; 4022224774; 264347078; 604807628;
    770255983; 1249150122; 1555081692; 1996064986;
    2554220882; 2821834349; 2952996808; 3210313671;
    3336571891; 3584528711; 113926993; 338241895;
    666307205; 773529912; 1294757372; 1396182291;
    1695183700; 1986661051; 2177026350; 2456956037;
    2730485921; 2820302411; 3259730800; 3345764771;
    3516065817; 3600352804; 4094571909; 275423344;
    430227734; 506948616; 659060556; 883997877;
    958139571; 1322822218; 1537002063; 1747873779;
    1955562222; 2024104815; 2227730452; 2361852424;
    2428436474; 2756734187; 3204031479; 3329325298
  ].

(** The initial state (square roots of the first 8 primes), in decimal. *)
Definition init : list Z :=
  [
    1779033703; 3144134277; 1013904242; 2773480762;
    1359893119; 2600822924; 528734635; 1541459225
  ].

(** Big-endian load and store. *)
Definition be_load (b : list Z) : Z := foldl (λ acc x, 256 * acc + x) 0 b.

Fixpoint be_store (n : nat) (x : Z) : list Z :=
  match n with
  | O => []
  | S n => (x / 256 ^ Z.of_nat n) mod 256 :: be_store n x
  end.

(** Padding: 0x80, zeros up to 56 mod 64, the bit length on eight bytes. *)
Definition pad (msg : list Z) : list Z :=
  let len := Z.of_nat (length msg) in
  msg ++ [0x80] ++ replicate (Z.to_nat ((55 - len) mod 64)) 0 ++ be_store 8 (8 * len).

(** The message schedule, most recent word first. *)
Fixpoint schedule (n : nat) (w : list Z) : list Z :=
  match n with
  | O => w
  | S n =>
      let x2 := w !!! 1%nat in
      let x7 := w !!! 6%nat in
      let x15 := w !!! 14%nat in
      let x16 := w !!! 15%nat in
      let s0 := Z.lxor (Z.lxor (rotr 7 x15) (rotr 18 x15)) (Z.shiftr x15 3) in
      let s1 := Z.lxor (Z.lxor (rotr 17 x2) (rotr 19 x2)) (Z.shiftr x2 10) in
      schedule n (mask32 (x16 + s0 + x7 + s1) :: w)
  end.

Definition step (v : list Z) (kw : Z * Z) : list Z :=
  match v with
  | [a; b; c; d; e; f; g; h] =>
      let S1 := Z.lxor (Z.lxor (rotr 6 e) (rotr 11 e)) (rotr 25 e) in
      let ch := Z.lxor (Z.land e f) (Z.land (Z.lxor e (2 ^ 32 - 1)) g) in
      let t1 := mask32 (h + S1 + ch + kw.1 + kw.2) in
      let S0 := Z.lxor (Z.lxor (rotr 2 a) (rotr 13 a)) (rotr 22 a) in
      let maj := Z.lxor (Z.lxor (Z.land a b) (Z.land a c)) (Z.land b c) in
      let t2 := mask32 (S0 + maj) in
      [mask32 (t1 + t2); a; b; c; mask32 (d + t1); e; f; g]
  | _ => v
  end.

Definition block (v : list Z) (b : list Z) : list Z :=
  let w0 := (λ i, be_load (take 4 (drop (4 * i) b))) <$> seq 0 16 in
  let w := rev (schedule 48 (rev w0)) in
  zip_with (λ x y, mask32 (x + y)) v (foldl step v (zip K w)).

Fixpoint blocks (fuel : nat) (v : list Z) (b : list Z) : list Z :=
  match fuel with
  | O => v
  | S fuel => if (64 <=? length b)%nat then blocks fuel (block v b) (drop 64 b) else v
  end.

(** [h.Write(msg); h.Sum(nil)] on a fresh hash: the 32-byte digest. *)
Definition Sum256 (msg : list Z) : list Z :=
  let p := pad msg in
  mjoin (be_store 4 <$> blocks (length p) init p).

End sha256.

(** Bytes of a Go string. *)
Definition bytes_of_string (s : string) : list Z :=
  (λ c, Z.of_N (N_of_ascii c)) <$> list_ascii_of_string s.

(** ** golang.zx2c4.com/wireguard/device: message types and sizes

    Modelled from the spec: the constants of the imported package [device].
    The table of section 3 gives the type bytes, the fixed sizes, the
    transport header size and the least transport size. *)
Module device.
Definition MessageInitiationType : Z := 1.
Definition MessageResponseType : Z := 2.
Definition MessageCookieReplyType : Z := 3.
Definition MessageTransportType : Z := 4.
Definition MessageInitiationSize : Z := 148.
Definition MessageResponseSize : Z := 92.
Definition MessageCookieReplySize : Z := 64.
Definition MessageTransportHeaderSize : Z := 16.
(** [MinMessageSize = MessageKeepaliveSize = MessageTransportSize]: the
    16-byte transport header and the 16-byte Poly1305 tag. *)
Definition MinMessageSize : Z := 32.
End device.

(** ** What the codec takes from elsewhere

    The two hash functions come from imported packages, and the two packet
    flag constants are declared with [Packet], in a file of the package that
    is not among the sources modelled here. The codec is written over any
    choice of them; [Module Real] at the end of the definitions supplies
    XXH64 and SHA-256 as defined above. *)
Class Hashes := {
  (** xxhash: the 64-bit digest of the bytes written since [Reset] *)
  xxhash_Sum64 : list Z → Z;
  (** sha256: the digest of the bytes written *)
  sha256_Sum : list Z → list Z
}.

Class PacketFlags := {
  PacketFlagDeobfuscatedAfterReceived : Z;
  PacketFlagObfuscateBeforeSend : Z
}.

(** ** Constants of the obfuscator *)
Definition kObfuscateRandomSuffixMaxLength : Z := 384.
Definition kObfuscateSuffixAsNonceMinLength : Z := 256.
Definition kObfuscateNonceLength : Z := 16.
Definition kObfuscateXORKeyLength : Z := 8.
Definition kMessageInitiationTypeMAC2Offset : Z := 132.
Definition kMessageResponseTypeMAC2Offset : Z := 76.

(** ** Packet

    Modelled from the spec: the declaration of [Packet] is not among the
    sources modelled here. The spec (section 3) gives it a fixed-capacity
    byte region [data], a cursor [length] and a bit set [flags]. [Data] is
    the whole [kMTU]-byte array, so its list length is the capacity. *)
Record Packet := mkPacket {
  Data : list Z;
  Length : Z;
  Flags : Z
}.

(** Modelled from the spec: [Packet.MessageType] is declared with [Packet].
    Section 4.2.2 reads the revealed [message_type = data[0]]; Deobfuscate
    calls it while [data[1]] may still hold the marker, so it reads the first
    byte alone. *)
Definition MessageType (packet : Packet) : option Z := Go.index (Data packet) 0.

(** ** math/rand: what one call of Obfuscate draws

    [rand_Int] is the value of [rand.Int()]; [rand_byte n] is the [n]-th byte
    that [rand.Read] writes. *)
Record Rand := mkRand {
  rand_Int : Z;
  rand_byte : nat → Z
}.

(** [rand.Read(b)]: every byte of [b] is overwritten. *)
Definition rand_Read (rnd : Rand) (b : list Z) : list Z := imap (λ n _, rand_byte rnd n) b.

Record WireGuardObfuscator := mkObfuscator {
  enabled : bool;
  userKeyHash : list Z
}.

(** Short-circuit [&&] over conditions that index the packet. *)
Definition and_then (a b : option bool) : option bool :=
  x ← a; if x : bool then b else Some false.

Section Codec.
Context `{Hashes, PacketFlags}.

(** [xxhash.Digest]: [Reset], [Write], and [Sum(xorKey[:0])], which stores the
    digest big-endian in the eight bytes of [xorKey]. *)
Definition digest_Reset : list Z := [].
Definition digest_Write (digest b : list Z) : list Z := digest ++ b.
Definition digest_Sum (digest : list Z) : list Z :=
  let s := xxhash_Sum64 digest in
  [ Go.byte (Z.shiftr s 56); Go.byte (Z.shiftr s 48); Go.byte (Z.shiftr s 40);
    Go.byte (Z.shiftr s 32); Go.byte (Z.shiftr s 24); Go.byte (Z.shiftr s 16);
    Go.byte (Z.shiftr s 8); Go.byte s ].

(** [Initialize]. The seeding of the global generator is not modelled: the
    values it later yields are the [Rand] argument of [Obfuscate]. *)
Definition Initialize (o : WireGuardObfuscator) (userKey : string) : WireGuardObfuscator :=
  if (String.length userKey =? 0)%nat then
    {| enabled := false; userKeyHash := userKeyHash o |}
  else
    {| enabled := true; userKeyHash := sha256_Sum (bytes_of_string userKey) |}.

(** The masks are [0b11111000], [0b11111110], [0b11010111], [0b01101001]. *)
Definition modifyHashMaskForWireGuardHeaderConflict (b : list Z) : option (list Z) :=
  conflict ← and_then ((λ b0, Z.land b0 0xf8 =? 0) <$> Go.index b 0)
                      ((λ b1, Z.land b1 0xfe =? 0) <$> Go.index b 1);
  if conflict : bool then
    b0 ← Go.index b 0;
    b ← Go.store b 0 (Z.lor b0 0xd7);
    b1 ← Go.index b 1;
    Go.store b 1 (Z.lor b1 0x69)
  else Some b.

(** The closure [isAllZero] of Obfuscate. *)
Fixpoint isAllZero (b : list Z) : bool :=
  match b with
  | [] => true
  | v :: b => if negb (v =? 0) then false else isAllZero b
  end.

(** The closure [memset] of Deobfuscate. *)
Definition memset (b : list Z) (c : Z) : list Z := (λ _, c) <$> b.

(** [for ; j < hi; j++ { data[j] ^= xorKey[j-i] }]. The inner loops of
    Obfuscate and Deobfuscate run it with [hi = min(i+8, obfsPartLength)]
    (their condition is [j < i+8 && j < obfsPartLength]); the first block of
    Deobfuscate with [i = 0] and [hi = 8]. *)
Fixpoint xor_range (fuel : nat) (xorKey : list Z) (i j hi : Z) (data : list Z) : option (list Z) :=
  if j <? hi then
    match fuel with
    | O => None
    | S fuel =>
        d ← Go.index data j;
        k ← Go.index xorKey (j - i);
        data ← Go.store data j (Z.lxor d k);
        xor_range fuel xorKey i (j + 1) hi data
    end
  else Some data.

(** The block loop of Obfuscate, from [i] on. *)
Fixpoint Obfuscate_loop (fuel : nat) (o : WireGuardObfuscator) (digest : list Z)
    (i obfsPartLength : Z) (data : list Z) : option (list Z) :=
  if i <? obfsPartLength then
    match fuel with
    | O => None
    | S fuel =>
        let digest := digest_Write digest (userKeyHash o) in
        let xorKey := digest_Sum digest in
        xorKey ← (if i =? 0 then modifyHashMaskForWireGuardHeaderConflict xorKey else Some xorKey);
        data ← xor_range 8 xorKey i i (Z.min (i + kObfuscateXORKeyLength) obfsPartLength) data;
        Obfuscate_loop fuel o digest (i + kObfuscateXORKeyLength) obfsPartLength data
    end
  else Some data.

(** The switch of Obfuscate on the message type: the packet after padding
    and the length of the part to obfuscate, or [None] for [default: return]. *)
Definition Obfuscate_switch (rnd : Rand) (packet : Packet) (messageType : Z)
    : option (option (Packet * Z)) :=
  let pad (size : Z) (mac2 : option Z) : option (option (Packet * Z)) :=
    let length := size + kObfuscateNonceLength
                  + Z.rem (rand_Int rnd) kObfuscateRandomSuffixMaxLength in
    '(data, obfsPartLength) ←
      match mac2 with
      | Some offset =>
          m ← Go.slice (Data packet) offset size;
          if isAllZero m then
            data ← Go.store (Data packet) 1 0x01;
            Some (data, offset)
          else Some (Data packet, size)
      | None => Some (Data packet, size)
      end;
    b ← Go.slice data obfsPartLength length;
    Some (Some (mkPacket (Go.write_back data obfsPartLength length (rand_Read rnd b))
                         length (Flags packet), obfsPartLength)) in
  if messageType =? device.MessageInitiationType then
    pad device.MessageInitiationSize (Some kMessageInitiationTypeMAC2Offset)
  else if messageType =? device.MessageResponseType then
    pad device.MessageResponseSize (Some kMessageResponseTypeMAC2Offset)
  else if messageType =? device.MessageCookieReplyType then
    pad device.MessageCookieReplySize None
  else if messageType =? device.MessageTransportType then
    if Length packet <? kObfuscateSuffixAsNonceMinLength then
      data ← Go.store (Data packet) 1 0x01;
      let length := Length packet + kObfuscateNonceLength in
      b ← Go.slice data (length - kObfuscateNonceLength) length;
      Some (Some (mkPacket (Go.write_back data (length - kObfuscateNonceLength) length
                                          (rand_Read rnd b))
                           length (Flags packet), device.MessageTransportHeaderSize))
    else Some (Some (packet, device.MessageTransportHeaderSize))
  else Some None.

(** [copy(nonce[:], packet.Data[packet.Length-kObfuscateNonceLength:])] *)
Definition read_nonce (packet : Packet) : option (list Z) :=
  src ← Go.slice (Data packet) (Length packet - kObfuscateNonceLength)
                 (Z.of_nat (length (Data packet)));
  Some (Go.copy (replicate (Z.to_nat kObfuscateNonceLength) 0) src).

Definition Obfuscate (o : WireGuardObfuscator) (rnd : Rand) (packet : Packet) : option Packet :=
  if negb (enabled o) then Some packet
  else if Z.land (Flags packet) PacketFlagObfuscateBeforeSend =? 0 then Some packet
  else
    messageType ← MessageType packet;
    padded ← Obfuscate_switch rnd packet messageType;
    match padded with
    | None => Some packet
    | Some (packet, obfsPartLength) =>
        nonce ← read_nonce packet;
        let digest := digest_Write digest_Reset nonce in
        data ← Obfuscate_loop (Z.to_nat obfsPartLength) o digest 0 obfsPartLength (Data packet);
        Some (mkPacket data (Length packet) (Flags packet))
    end.

(** The switch of Deobfuscate on the revealed message type. *)
Definition Deobfuscate_switch (packet : Packet) (messageType : Z) : option (option (Packet * Z)) :=
  let fixed (size : Z) (mac2 : option Z) : option (option (Packet * Z)) :=
    match mac2 with
    | Some offset =>
        d1 ← Go.index (Data packet) 1;
        if d1 =? 0x01 then
          data ← Go.store (Data packet) 1 0;
          m ← Go.slice data offset size;
          Some (Some (mkPacket (Go.write_back data offset size (memset m 0)) size (Flags packet),
                      offset))
        else Some (Some (mkPacket (Data packet) size (Flags packet), size))
    | None => Some (Some (mkPacket (Data packet) size (Flags packet), size))
    end in
  if messageType =? device.MessageInitiationType then
    fixed device.MessageInitiationSize (Some kMessageInitiationTypeMAC2Offset)
  else if messageType =? device.MessageResponseType then
    fixed device.MessageResponseSize (Some kMessageResponseTypeMAC2Offset)
  else if messageType =? device.MessageCookieReplyType then
    fixed device.MessageCookieReplySize None
  else if messageType =? device.MessageTransportType then
    d1 ← Go.index (Data packet) 1;
    if d1 =? 0x01 then
      data ← Go.store (Data packet) 1 0;
      Some (Some (mkPacket data (Length packet - kObfuscateNonceLength) (Flags packet),
                  device.MessageTransportHeaderSize))
    else Some (Some (packet, device.MessageTransportHeaderSize))
  else Some None.

(** The loop of Deobfuscate that decodes the rest, from [i] on. *)
Fixpoint Deobfuscate_loop (fuel : nat) (o : WireGuardObfuscator) (digest : list Z)
    (i obfsPartLength : Z) (data : list Z) : option (list Z) :=
  if i <? obfsPartLength then
    match fuel with
    | O => None
    | S fuel =>
        let digest := digest_Write digest (userKeyHash o) in
        let xorKey := digest_Sum digest in
        data ← xor_range 8 xorKey i i (Z.min (i + kObfuscateXORKeyLength) obfsPartLength) data;
        Deobfuscate_loop fuel o digest (i + kObfuscateXORKeyLength) obfsPartLength data
    end
  else Some data.

(** The pass-through test of Deobfuscate on the first four bytes. *)
Definition is_wireguard_header (data : list Z) : option bool :=
  let test (i : Z) (p : Z → bool) : option bool := p <$> Go.index data i in
  and_then (test 0 (λ d, 1 <=? d))
    (and_then (test 0 (λ d, d <=? 4))
       (and_then (test 1 (λ d, d =? 0))
          (and_then (test 2 (λ d, d =? 0)) (test 3 (λ d, d =? 0))))).

Definition Deobfuscate (o : WireGuardObfuscator) (packet : Packet) : option Packet :=
  if negb (enabled o) then Some packet
  else if Length packet <? device.MinMessageSize then Some packet
  else
    plain ← is_wireguard_header (Data packet);
    if plain : bool then Some packet
    else
      nonce ← read_nonce packet;
      let digest := digest_Write digest_Reset nonce in
      let digest := digest_Write digest (userKeyHash o) in
      xorKey ← modifyHashMaskForWireGuardHeaderConflict (digest_Sum digest);
      data ← xor_range 8 xorKey 0 0 kObfuscateXORKeyLength (Data packet);
      let packet := mkPacket data (Length packet) (Flags packet) in
      messageType ← MessageType packet;
      revealed ← Deobfuscate_switch packet messageType;
      match revealed with
      | None => Some packet
      | Some (packet, obfsPartLength) =>
          data ← Deobfuscate_loop (Z.to_nat obfsPartLength) o digest
                   kObfuscateXORKeyLength obfsPartLength (Data packet);
          Some (mkPacket data (Length packet)
                         (Z.lor (Flags packet) PacketFlagDeobfuscatedAfterReceived))
      end.

(** The message type Deobfuscate reveals: byte 0 under the first keystream
    block (its steps up to [packet.MessageType()]). *)
Definition revealed_type (o : WireGuardObfuscator) (packet : Packet) : option Z :=
  nonce ← read_nonce packet;
  let digest := digest_Write digest_Reset nonce in
  let digest := digest_Write digest (userKeyHash o) in
  xorKey ← modifyHashMaskForWireGuardHeaderConflict (digest_Sum digest);
  d ← Go.index (Data packet) 0;
  k ← Go.index xorKey 0;
  Some (Z.lxor d k).

End Codec.

(** ** The client leg (client.go) *)

Record Client := mkClient {
  id : Z;
  (** [None] is the nil slice: no [xor_key] configured *)
  xorKey : option (list Z)
}.

Record ErrPacketTooShort := mkErrPacketTooShort { TooShort_Length : Z }.

(** [for ; i < len(packet); i++ { packet[i] ^= c.xorKey[i%len(c.xorKey)] }] *)
Fixpoint manglePacket_loop (fuel : nat) (key : list Z) (i : Z) (packet : list Z)
    : option (list Z) :=
  if i <? Z.of_nat (length packet) then
    match fuel with
    | O => None
    | S fuel =>
        (* i % len(c.xorKey) panics on a zero divisor *)
        r ← (if Z.of_nat (length key) =? 0 then None else Some (Z.rem i (Z.of_nat (length key))));
        k ← Go.index key r;
        d ← Go.index packet i;
        packet ← Go.store packet i (Z.lxor d k);
        manglePacket_loop fuel key (i + 1) packet
    end
  else Some packet.

(** [manglePacket]: the pair [(outPacket, err)] it returns, or [None] when it
    panics. The [if] that sets [err] has no [return]: the body below it runs
    for every length. *)
Definition manglePacket (c : Client) (packet : list Z)
    : option (list Z * option ErrPacketTooShort) :=
  let err :=
    if Z.of_nat (length packet) <? 4
    then Some (mkErrPacketTooShort (Z.of_nat (length packet)))
    else None in
  packet ← Go.store packet 1 (Go.byte (id c));
  packet ← match xorKey c with
            | Some key => manglePacket_loop (length packet) key 0 packet
            | None => Some packet
            end;
  Some (packet, err).

(** One turn of the loop of [Client.Start], after a successful read of
    [packet]: the datagram is handed to [forwardPacket], or dropped with a
    warning. [None]: the panic of [manglePacket] unwinds [Start]. *)
Inductive Turn :=
  | Forwarded (mangledPacket : list Z)
  | Dropped (warn : ErrPacketTooShort).

Definition Start_turn (c : Client) (packet : list Z) : option Turn :=
  '(mangledPacket, err) ← manglePacket c packet;
  match err with
  | Some e => Some (Dropped e)
  | None => Some (Forwarded mangledPacket)
  end.

(** The key byte that [manglePacket] XORs into byte [j]: [xorKey[j % len]],
    or nothing (zero) without a key. *)
Definition key_byte (c : Client) (j : Z) : Z :=
  match xorKey c with
  | Some key => default 0 (Go.index key (Z.rem j (Z.of_nat (length key))))
  | None => 0
  end.

(** [manglePacket] in closed form: the peer id at byte 1, then the key over
    every byte. *)
Definition mangled (c : Client) (packet : list Z) : list Z :=
  imap (λ n d, Z.lxor (if Z.of_nat n =? 1 then Go.byte (id c) else d) (key_byte c (Z.of_nat n))) packet.

(** *** NewClientWithConfig and the loop of Start *)

Record ClientConfig := mkClientConfig {
  Server : string;
  ID : Z;
  Listen : string;
  Timeout : Z;
  XORKey : string
}.

Inductive ClientError :=
  | ErrResolveAddr (Type_ Addr Cause : string)
  | ErrInvalidPeerID (peer : Z).

Section ClientSetup.

(** [*net.UDPAddr], and [net.ResolveUDPAddr("udp", address)]: the address,
    or the cause of the failure. *)
Variable UDPAddr : Type.
Variable ResolveUDPAddr : string → UDPAddr + string.

(** The bound on peer ids, a constant declared with the forwarding table. *)
Variable kMaxPeersCount : Z.

(** The [Client] that NewClientWithConfig builds: the fields manglePacket
    reads and the two addresses. The forwarding table is left out. *)
Record NewClient := mkNewClient {
  client : Client;
  serverAddr : UDPAddr;
  listenAddr : UDPAddr
}.

Definition NewClientWithConfig (config : ClientConfig) : ClientError + NewClient :=
  match ResolveUDPAddr (Server config) with
  | inr rerr => inl (ErrResolveAddr "server" (Server config) rerr)
  | inl serverAddr =>
      match ResolveUDPAddr (Listen config) with
      | inr rerr => inl (ErrResolveAddr "listen" (Listen config) rerr)
      | inl listenAddr =>
          if (ID config <? 0) || (ID config >=? kMaxPeersCount) then
            inl (ErrInvalidPeerID (ID config))
          else
            let xorKeyBs :=
              if (0 <? String.length (XORKey config))%nat
              then Some (bytes_of_string (XORKey config))
              else None in
            inr (mkNewClient (mkClient (ID config) xorKeyBs) serverAddr listenAddr)
      end
  end.

(** What one call of [conn.ReadFromUDP] returns in the loop of Start: an
    error, or a datagram and its source, given with the error that the
    [forwardPacket] call of that turn returns when the turn gets to it. *)
Inductive Read :=
  | ReadError (err : string)
  | Datagram (packet : list Z) (srcAddr : UDPAddr) (forwardErr : option string).

(** What the loop does to the outside: calls of [forwardPacket] and log lines. *)
Inductive Effect :=
  | ForwardPacket (srcAddr dstAddr : UDPAddr) (mangledPacket : list Z)
  | LogWarn (srcAddr : UDPAddr) (err : ErrPacketTooShort)
  | LogError (cause : string).

(** How a run over the given reads ends: Start returned, a panic unwound
    it, or it is blocked in [ReadFromUDP] with all the reads consumed. *)
Inductive Outcome :=
  | Returned (err : option string)
  | Panicked
  | Reading.

(** The [for] loop of Start. The [err] it assigns is its own (declared by
    [:=] inside the loop), so [break] leads to [return] with a nil error. *)
Fixpoint Start_loop (c : Client) (server : UDPAddr) (reads : list Read)
    : list Effect * Outcome :=
  match reads with
  | [] => ([], Reading)
  | ReadError err :: _ => ([LogError err], Returned None)
  | Datagram packet srcAddr forwardErr :: reads =>
      match manglePacket c packet with
      | None => ([], Panicked)
      | Some (mangledPacket, Some err) =>
          let '(effects, outcome) := Start_loop c server reads in
          (LogWarn srcAddr err :: effects, outcome)
      | Some (mangledPacket, None) =>
          let '(effects, outcome) := Start_loop c server reads in
          (ForwardPacket srcAddr server mangledPacket
             :: match forwardErr with
                | Some err => LogError err :: effects
                | None => effects
                end,
           outcome)
      end
  end.

(** [Start]: [listenErr] is the error of [net.ListenUDP], if any. *)
Definition Start (n : NewClient) (listenErr : option string) (reads : list Read)
    : list Effect * Outcome :=
  match listenErr with
  | Some err => ([], Returned (Some err))
  | None => Start_loop (client n) (serverAddr n) reads
  end.

(** The calls of [forwardPacket] among the effects, in order. *)
Definition forward_calls (effects : list Effect) : list (UDPAddr * UDPAddr * list Z) :=
  omap (λ e, match e with
             | ForwardPacket srcAddr dstAddr mangledPacket => Some (srcAddr, dstAddr, mangledPacket)
             | _ => None
             end) effects.

(** The datagrams read before the first read error. *)
Fixpoint datagrams (reads : list Read) : list (list Z * UDPAddr) :=
  match reads with
  | Datagram packet srcAddr _ :: reads => (packet, srcAddr) :: datagrams reads
  | _ => []
  end.

End ClientSetup.

(** ** The libraries as defined above, and one choice of flag bits *)
Module Real.

#[export] Instance hashes : Hashes :=
  {| xxhash_Sum64 := xxhash.Sum64; sha256_Sum := sha256.Sum256 |}.

#[export] Instance flags : PacketFlags :=
  {| PacketFlagDeobfuscatedAfterReceived := 1; PacketFlagObfuscateBeforeSend := 2 |}.

(** The obfuscator of the test configuration. *)
Definition obfs : WireGuardObfuscator :=
  Initialize (mkObfuscator false (replicate 32 0)) "kisekimo, mahoumo, muryoudewaarimasen".

(** A packet buffer of 2048 bytes that holds [bytes]. *)
Definition packet_of (bytes : list Z) (flags : Z) : Packet :=
  mkPacket (bytes ++ replicate (2048 - length bytes) 0) (Z.of_nat (length bytes)) flags.

(** [rand.Int()] returns 1000, so the suffix is [1000 % 384 = 232] bytes;
    [rand.Read] writes 0, 1, 2, ... *)
Definition rnd : Rand := mkRand 1000 (λ n, Z.of_nat n mod 256).

(** A Response frame with an all-zero MAC2, to be obfuscated before sending. *)
Definition response : Packet :=
  packet_of ([2; 0; 0; 0] ++ replicate 72 7 ++ replicate 16 0) 2.

(** The transport frame of scenario S5: 100 bytes. *)
Definition transport : Packet := packet_of ([4; 0; 0; 0] ++ replicate 96 9) 2.

(** A datagram shorter than any WireGuard message. *)
Definition runt : Packet := packet_of [9; 9; 9; 9; 9] 0.

(** A packet that is neither plain WireGuard nor obfuscated with the key of
    [obfs]. *)
Definition junk : Packet := packet_of (replicate 40 200) 0.

(** The client leg on addresses as strings: an empty address fails to
    resolve; peer ids are bytes. *)
Definition resolve (address : string) : string + string :=
  if (String.length address =? 0)%nat then inr "missing address"%string else inl address.

Definition client_config : ClientConfig :=
  mkClientConfig "192.0.2.1:1000" 5 ":1000" 60 "key".

(** A packet that is not WireGuard, to be obfuscated before sending. *)
Definition foreign : Packet := packet_of (replicate 40 200) 2.

(** [response] as Obfuscate sends it with the draw [rnd]. *)
Definition wire : Packet := default response (Obfuscate obfs rnd response).

(** The datagram of [wire] in a receive buffer of 1500 bytes that held
    other bytes before. *)
Definition arrived : Packet :=
  mkPacket (take (Z.to_nat (Length wire)) (Data wire)
              ++ replicate (1500 - Z.to_nat (Length wire)) 170)
           (Length wire) 0.

(** What Deobfuscate makes of [wire]. *)
Definition received : Packet := default wire (Deobfuscate obfs wire).

(** A client with peer id 5 and the key of [client_config], and what its
    socket reads: two datagrams, a short one, a third datagram whose
    forwarding fails, then a read error. *)
Definition peer : Client := mkClient 5 (Some (bytes_of_string "key")).

Definition reads : list (Read string) :=
  [ Datagram string [4; 0; 0; 0; 7] "198.51.100.1:7" None;
    Datagram string [1; 2; 3] "198.51.100.2:7" None;
    Datagram string [4; 0; 0; 0; 8; 9] "198.51.100.1:7" (Some "network is unreachable");
    ReadError string "use of closed network connection";
    Datagram string [4; 0; 0; 0] "198.51.100.3:7" None ]%string.

End Real.

(** ** Closed forms used by the proofs *)

(** [pointwise g b]: byte [j] of [b] becomes [g j b[j]]. Every in-place
    update of the packet is of this shape. *)
Definition pointwise (g : Z → Z → Z) (b : list Z) : list Z :=
  imap (λ n d, g (Z.of_nat n) d) b.

(** [d] unless [lo <= j < hi], where it is [v]. *)
Definition within (lo hi j : Z) (v d : Z) : Z :=
  if (lo <=? j) && (j <? hi) then v else d.

Section Keystream.
Context `{Hashes}.
Variable o : WireGuardObfuscator.
Variable nonce : list Z.

(** The digest state after the nonce and [k] writes of the key hash. *)
Fixpoint digest_at (k : nat) : list Z :=
  match k with
  | O => digest_Write digest_Reset nonce
  | S k => digest_Write (digest_at k) (userKeyHash o)
  end.

(** Keystream block [n]; block 0 goes through the header-conflict mask. *)
Definition block (n : nat) : list Z :=
  let raw := digest_Sum (digest_at (S n)) in
  match n with
  | O => default raw (modifyHashMaskForWireGuardHeaderConflict raw)
  | S _ => raw
  end.

(** Keystream byte [j]. *)
Definition keystream (j : Z) : Z :=
  default 0 (Go.index (block (Z.to_nat (j / 8))) (j mod 8)).

(** The keystream over the first [obfs] bytes, as a pointwise update. *)
Definition masked (obfs : Z) (j d : Z) : Z :=
  within 0 obfs j (Z.lxor d (keystream j)) d.

End Keystream.

(** The padding of Obfuscate as a pointwise update: the marker at byte 1,
    then random bytes over [fill .. length). *)
Definition padded (rnd : Rand) (marker : bool) (fill length : Z) (j d : Z) : Z :=
  within fill length j (rand_byte rnd (Z.to_nat (j - fill)))
    (if marker && (j =? 1) then 1 else d).

(** Does Obfuscate find the MAC2 field of a frame of type [t] all zero? *)
Definition zero_mac2 (data : list Z) (t : Z) : bool :=
  let field :=
    if t =? device.MessageInitiationType then
      Go.slice data kMessageInitiationTypeMAC2Offset device.MessageInitiationSize
    else if t =? device.MessageResponseType then
      Go.slice data kMessageResponseTypeMAC2Offset device.MessageResponseSize
    else None in
  match field with
  | Some m => isAllZero m
  | None => false
  end.

(** What the switch of Obfuscate decides for a packet of type [t] (1..4):
    whether it sets the marker, the length of the part to obfuscate, where
    the random bytes start, and the new length. *)
Record Plan := mkPlan {
  plan_marker : bool;
  plan_obfs : Z;
  plan_fill : Z;
  plan_length : Z
}.

Definition Obfuscate_plan (rnd : Rand) (packet : Packet) (t : Z) : Plan :=
  let suffix := Z.rem (rand_Int rnd) kObfuscateRandomSuffixMaxLength in
  let handshake (size offset : Z) :=
    if zero_mac2 (Data packet) t
    then mkPlan true offset offset (size + kObfuscateNonceLength + suffix)
    else mkPlan false size size (size + kObfuscateNonceLength + suffix) in
  if t =? device.MessageInitiationType then
    handshake device.MessageInitiationSize kMessageInitiationTypeMAC2Offset
  else if t =? device.MessageResponseType then
    handshake device.MessageResponseSize kMessageResponseTypeMAC2Offset
  else if t =? device.MessageCookieReplyType then
    mkPlan false device.MessageCookieReplySize device.MessageCookieReplySize
           (device.MessageCookieReplySize + kObfuscateNonceLength + suffix)
  else if Length packet <? kObfuscateSuffixAsNonceMinLength then
    mkPlan true device.MessageTransportHeaderSize (Length packet)
           (Length packet + kObfuscateNonceLength)
  else
    mkPlan false device.MessageTransportHeaderSize (Length packet) (Length packet).

(** What the switch of Deobfuscate decides from the revealed type [t] (1..4)
    and the revealed byte 1, [m]: the part left to decode, the length, and
    the bytes it resets. *)
Definition revealed_obfs (t m : Z) : Z :=
  if t =? device.MessageInitiationType then
    if m =? 1 then kMessageInitiationTypeMAC2Offset else device.MessageInitiationSize
  else if t =? device.MessageResponseType then
    if m =? 1 then kMessageResponseTypeMAC2Offset else device.MessageResponseSize
  else if t =? device.MessageCookieReplyType then device.MessageCookieReplySize
  else device.MessageTransportHeaderSize.

Definition revealed_length (t m length : Z) : Z :=
  if t =? device.MessageInitiationType then device.MessageInitiationSize
  else if t =? device.MessageResponseType then device.MessageResponseSize
  else if t =? device.MessageCookieReplyType then device.MessageCookieReplySize
  else if m =? 1 then length - kObfuscateNonceLength else length.

Definition restored (t m : Z) (j d : Z) : Z :=
  if (m =? 1) && negb (t =? device.MessageCookieReplyType) then
    if j =? 1 then 0
    else if t =? device.MessageInitiationType then
      within kMessageInitiationTypeMAC2Offset device.MessageInitiationSize j 0 d
    else if t =? device.MessageResponseType then
      within kMessageResponseTypeMAC2Offset device.MessageResponseSize j 0 d
    else d
  else d.

(** What Deobfuscate makes of byte [j] once the first block has revealed
    the type [t] and byte 1, [m]: the first block, the resets of the switch,
    then the keystream over [8 .. revealed_obfs t m). *)
Definition decoded `{Hashes} (o : WireGuardObfuscator) (nonce : list Z) (t m : Z)
    (j d : Z) : Z :=
  let x := restored t m j (masked o nonce 8 j d) in
  within 8 (revealed_obfs t m) j (Z.lxor x (keystream o nonce j)) x.

(** ** The frames the properties speak of *)

(** The capacity of the packet buffer. *)
Definition capacity (packet : Packet) : Z := Z.of_nat (length (Data packet)).

(** The length WireGuard gives a frame of type [t]; a transport frame has at
    least its 16-byte header. *)
Definition frame_length_ok (t length : Z) : bool :=
  if t =? device.MessageInitiationType then length =? device.MessageInitiationSize
  else if t =? device.MessageResponseType then length =? device.MessageResponseSize
  else if t =? device.MessageCookieReplyType then length =? device.MessageCookieReplySize
  else if t =? device.MessageTransportType then device.MessageTransportHeaderSize <=? length
  else false.

(** A WireGuard frame in a packet buffer: a message type in 1..4, the length
    of that type, within the capacity. *)
Definition wireguard_frame (packet : Packet) : bool :=
  match MessageType packet with
  | Some t => frame_length_ok t (Length packet) && (Length packet <=? capacity packet)
  | None => false
  end.

(** A canonical frame: a WireGuard frame whose first four bytes are
    [{1..4, 0, 0, 0}], the test of Deobfuscate. *)
Definition canonical_frame (packet : Packet) : bool :=
  wireguard_frame packet && bool_decide (is_wireguard_header (Data packet) = Some true).

(** The fixed size of the three handshake messages. *)
Definition fixed_size (t : Z) : Z :=
  if t =? device.MessageInitiationType then device.MessageInitiationSize
  else if t =? device.MessageResponseType then device.MessageResponseSize
  else device.MessageCookieReplySize.

(** The largest length Obfuscate can set needs this much room:
    [148 + 16 + 384]. *)
Definition kObfuscatedMaxLength : Z :=
  device.MessageInitiationSize + kObfuscateNonceLength + kObfuscateRandomSuffixMaxLength.

(** * Properties *)

(** ** The hash libraries on published test vectors *)

Example xxhash_empty : xxhash.Sum64 [] = 0xef46db3751d8e999.
Proof. vm_compute. reflexivity. Qed.

Example xxhash_a : xxhash.Sum64 (bytes_of_string "a") = 0xd24ec4f1a98c6e5b.
Proof. vm_compute. reflexivity. Qed.

Example xxhash_asdf : xxhash.Sum64 (bytes_of_string "asdf") = 0x415872f599cea71e.
Proof. vm_compute. reflexivity. Qed.

Example xxhash_63 :
  xxhash.Sum64 (bytes_of_string "Call me Ishmael. Some years ago--never mind how long precisely-")
  = 0x02a2e85470d6fd96.
Proof. vm_compute. reflexivity. Qed.

Example xxhash_39 :
  xxhash.Sum64 (bytes_of_string "Nobody inspects the spammish repetition")
  = 0xfbcea83c8a378bf1.
Proof. vm_compute. reflexivity. Qed.

Example sha256_abc :
  sha256.Sum256 (bytes_of_string "abc")
  = [0xba; 0x78; 0x16; 0xbf; 0x8f; 0x01; 0xcf; 0xea; 0x41; 0x41; 0x40; 0xde; 0x5d; 0xae; 0x22; 0x23;
     0xb0; 0x03; 0x61; 0xa3; 0x96; 0x17; 0x7a; 0x9c; 0xb4; 0x10; 0xff; 0x61; 0xf2; 0x00; 0x15; 0xad].
Proof. vm_compute. reflexivity. Qed.

Example sha256_test_config_key :
  sha256.Sum256 (bytes_of_string "kisekimo, mahoumo, muryoudewaarimasen")
  = [0x55; 0x23; 0x6c; 0x69; 0xef; 0xfe; 0x80; 0x10; 0x21; 0x27; 0x93; 0xde; 0x45; 0x72; 0x60; 0x10;
     0x07; 0x25; 0xad; 0xfa; 0xf4; 0x8e; 0xdb; 0x3f; 0x9e; 0xcf; 0xce; 0x66; 0x2d; 0x51; 0x9f; 0xd4].
Proof. vm_compute. reflexivity. Qed.

(** ** Go slices *)
Section GoFacts.
Implicit Types (b : list Z) (i j lo hi v : Z).

Lemma index_nat b (n : nat) : Go.index b (Z.of_nat n) = b !! n.
Proof.
  unfold Go.index. destruct (Z.leb_spec 0 (Z.of_nat n)); [|lia].
  by rewrite Nat2Z.id.
Qed.

Lemma index_Some_lt b i x : Go.index b i = Some x → 0 ≤ i < Z.of_nat (length b).
Proof.
  unfold Go.index. destruct (Z.leb_spec 0 i); [|done].
  intros Hl%lookup_lt_Some. lia.
Qed.

Lemma index_is_Some b i : 0 ≤ i < Z.of_nat (length b) → ∃ x, Go.index b i = Some x.
Proof.
  intros Hi. unfold Go.index. destruct (Z.leb_spec 0 i); [|lia].
  destruct (lookup_lt_is_Some_2 b (Z.to_nat i)) as [x Hx]; [lia|]. eauto.
Qed.

Lemma index_None b i : ¬ (0 ≤ i < Z.of_nat (length b)) → Go.index b i = None.
Proof.
  intros Hi. destruct (Go.index b i) eqn:E; [|done].
  apply index_Some_lt in E. lia.
Qed.

Lemma index_ext b b' : (∀ j, Go.index b j = Go.index b' j) → b = b'.
Proof. intros E. apply list_eq. intros n. rewrite <- !index_nat. apply E. Qed.

Lemma length_pointwise g b : length (pointwise g b) = length b.
Proof. apply length_imap. Qed.

Lemma index_pointwise g b j : Go.index (pointwise g b) j = g j <$> Go.index b j.
Proof.
  unfold Go.index, pointwise. destruct (Z.leb_spec 0 j); [|done].
  rewrite list_lookup_imap. destruct (b !! Z.to_nat j); [|done].
  simpl. by rewrite Z2Nat.id.
Qed.

Lemma pointwise_ext g g' b :
  (∀ j d, Go.index b j = Some d → g j d = g' j d) → pointwise g b = pointwise g' b.
Proof.
  intros E. apply index_ext. intros j. rewrite !index_pointwise.
  destruct (Go.index b j) eqn:Ej; [|done]. simpl. by rewrite (E _ _ Ej).
Qed.

Lemma pointwise_id g b :
  (∀ j d, Go.index b j = Some d → g j d = d) → pointwise g b = b.
Proof.
  intros E. apply index_ext. intros j. rewrite index_pointwise.
  destruct (Go.index b j) eqn:Ej; [|done]. simpl. by rewrite (E _ _ Ej).
Qed.

Lemma pointwise_compose g g' b :
  pointwise g (pointwise g' b) = pointwise (λ j d, g j (g' j d)) b.
Proof.
  apply index_ext. intros j. rewrite !index_pointwise.
  by destruct (Go.index b j).
Qed.

Lemma store_Some b i v :
  0 ≤ i < Z.of_nat (length b) →
  Go.store b i v = Some (pointwise (λ j d, if j =? i then v else d) b).
Proof.
  intros Hi. unfold Go.store.
  destruct (Z.leb_spec 0 i); [|lia]. destruct (Z.ltb_spec i (Z.of_nat (length b))); [|lia].
  simpl. f_equal. apply index_ext. intros j. rewrite index_pointwise.
  unfold Go.index. destruct (Z.leb_spec 0 j); [|done].
  destruct (Z.eqb_spec j i) as [->|Hne].
  - rewrite list_lookup_insert_eq by lia.
    destruct (lookup_lt_is_Some_2 b (Z.to_nat i)) as [x ->]; [lia|]. done.
  - rewrite list_lookup_insert_ne by lia. by destruct (b !! Z.to_nat j).
Qed.

Lemma store_None b i v : ¬ (0 ≤ i < Z.of_nat (length b)) → Go.store b i v = None.
Proof.
  intros Hi. unfold Go.store.
  destruct (Z.leb_spec 0 i); destruct (Z.ltb_spec i (Z.of_nat (length b))); simpl; try done; lia.
Qed.

Lemma slice_Some b lo hi :
  0 ≤ lo ≤ hi → hi ≤ Z.of_nat (length b) →
  Go.slice b lo hi = Some (take (Z.to_nat (hi - lo)) (drop (Z.to_nat lo) b)).
Proof.
  intros Hlo Hhi. unfold Go.slice.
  destruct (Z.leb_spec 0 lo); [|lia]. destruct (Z.leb_spec lo hi); [|lia].
  destruct (Z.leb_spec hi (Z.of_nat (length b))); [|lia]. done.
Qed.

Lemma slice_inv b lo hi sl :
  Go.slice b lo hi = Some sl →
  0 ≤ lo ≤ hi ∧ hi ≤ Z.of_nat (length b) ∧ sl = take (Z.to_nat (hi - lo)) (drop (Z.to_nat lo) b).
Proof.
  unfold Go.slice.
  destruct (Z.leb_spec 0 lo); [|done]. destruct (Z.leb_spec lo hi); [|done].
  destruct (Z.leb_spec hi (Z.of_nat (length b))); [|done]. simpl. intros [= <-]. split_and!; lia || done.
Qed.

Lemma index_slice b lo hi sl j :
  Go.slice b lo hi = Some sl → 0 ≤ j < hi - lo → Go.index sl j = Go.index b (lo + j).
Proof.
  intros (Hlo & Hhi & ->)%slice_inv Hj. unfold Go.index.
  destruct (Z.leb_spec 0 j); [|lia]. destruct (Z.leb_spec 0 (lo + j)); [|lia].
  rewrite lookup_take_lt by lia. rewrite lookup_drop. f_equal. lia.
Qed.

Lemma length_slice b lo hi sl :
  Go.slice b lo hi = Some sl → Z.of_nat (length sl) = hi - lo.
Proof.
  intros (Hlo & Hhi & ->)%slice_inv. rewrite length_take, length_drop. lia.
Qed.

(** Writing [f n] at every position [n] of the slice [b[lo:hi]]. *)
Lemma write_back_imap b lo hi sl (f : nat → Z) :
  Go.slice b lo hi = Some sl →
  Go.write_back b lo hi (imap (λ n _, f n) sl)
  = pointwise (λ j d, within lo hi j (f (Z.to_nat (j - lo))) d) b.
Proof.
  intros Hs. pose proof (length_slice _ _ _ _ Hs) as Hlen.
  apply slice_inv in Hs as (Hlo & Hhi & _).
  apply list_eq. intros n.
  rewrite <- (index_nat (pointwise _ _)), index_pointwise, index_nat.
  unfold Go.write_back, within.
  destruct (Z.leb_spec lo (Z.of_nat n)); destruct (Z.ltb_spec (Z.of_nat n) hi); simpl.
  - rewrite lookup_app_r by (rewrite length_take; lia).
    rewrite length_take, lookup_app_l by (rewrite length_imap; lia).
    rewrite list_lookup_imap.
    destruct (lookup_lt_is_Some_2 sl (n - Z.to_nat lo `min` length b)) as [x ->]; [lia|].
    destruct (lookup_lt_is_Some_2 b n) as [y ->]; [lia|].
    simpl. do 2 f_equal. lia.
  - rewrite lookup_app_r by (rewrite length_take; lia).
    rewrite length_take, lookup_app_r by (rewrite length_imap; lia).
    rewrite lookup_drop, length_imap.
    replace (Z.to_nat hi + (n - Z.to_nat lo `min` length b - length sl))%nat with n by lia.
    by destruct (b !! n).
  - rewrite lookup_app_l by (rewrite length_take; lia).
    rewrite lookup_take_lt by lia. by destruct (b !! n).
  - lia.
Qed.

Lemma memset_imap (sl : list Z) c : memset sl c = imap (λ _ _, c) sl.
Proof.
  unfold memset. apply list_eq. intros n.
  rewrite list_lookup_fmap, list_lookup_imap. done.
Qed.

End GoFacts.

(** ** The keystream loops *)
Section LoopFacts.
Context `{Hashes}.
Implicit Types (o : WireGuardObfuscator) (b data nonce xorKey : list Z) (i j lo hi : Z).

Lemma length_digest_Sum digest : length (digest_Sum digest) = 8%nat.
Proof. done. Qed.

Lemma bind_Some {A B} (x : A) (f : A → option B) : Some x ≫= f = f x.
Proof. done. Qed.

(** The mask either leaves a block that already has one of the tested bits,
    or sets some of them: the returned block never passes the test again. *)
Lemma modifyHashMask_spec b :
  (2 ≤ length b)%nat →
  ∃ b' k0 k1,
    modifyHashMaskForWireGuardHeaderConflict b = Some b'
    ∧ length b' = length b
    ∧ Go.index b' 0 = Some k0 ∧ Go.index b' 1 = Some k1
    ∧ ¬ (Z.land k0 0xf8 = 0 ∧ Z.land k1 0xfe = 0).
Proof.
  intros Hlen.
  destruct (index_is_Some b 0) as [b0 E0]; [lia|].
  destruct (index_is_Some b 1) as [b1 E1]; [lia|].
  unfold modifyHashMaskForWireGuardHeaderConflict.
  rewrite E0, E1. simpl.
  destruct (Z.eqb_spec (Z.land b0 248) 0) as [Z0|N0]; simpl.
  2:{ exists b, b0, b1. split_and!; try done. tauto. }
  destruct (Z.eqb_spec (Z.land b1 254) 0) as [Z1|N1]; simpl.
  2:{ exists b, b0, b1. split_and!; try done. tauto. }
  rewrite store_Some by lia. simpl.
  rewrite index_pointwise, E1. simpl.
  rewrite store_Some by (rewrite length_pointwise; lia).
  eexists _, (Z.lor b0 215), (Z.lor b1 105). split_and!; [done|..].
  - by rewrite !length_pointwise.
  - by rewrite !index_pointwise, E0.
  - by rewrite !index_pointwise, E1.
  - intros [Hk _]. rewrite Z.land_lor_distr_l in Hk.
    apply Z.lor_eq_0_iff in Hk as [_ Hk]. done.
Qed.

Lemma length_block o nonce n : length (block o nonce n) = 8%nat.
Proof.
  destruct n; [|done]. unfold block.
  destruct (modifyHashMask_spec (digest_Sum (digest_at o nonce 1))) as (b' & ? & ? & -> & Hl & _);
    [simpl; lia|].
  done.
Qed.

Lemma loop_key o nonce (k : nat) i :
  i = 8 * Z.of_nat k →
  (if i =? 0 then modifyHashMaskForWireGuardHeaderConflict (digest_Sum (digest_at o nonce (S k)))
   else Some (digest_Sum (digest_at o nonce (S k))))
  = Some (block o nonce k).
Proof.
  intros ->. destruct k as [|k].
  - simpl (8 * _ =? 0). cbv iota. unfold block.
    destruct (modifyHashMask_spec (digest_Sum (digest_at o nonce 1))) as (b' & ? & ? & -> & _);
      [simpl; lia|].
    done.
  - destruct (Z.eqb_spec (8 * Z.of_nat (S k)) 0); [lia|]. done.
Qed.

Lemma block_position (k : nat) j :
  8 * Z.of_nat k ≤ j < 8 * Z.of_nat k + 8 →
  Z.to_nat (j / 8) = k ∧ j mod 8 = j - 8 * Z.of_nat k.
Proof. intros Hj. Z.to_euclidean_division_equations. lia. Qed.

Lemma xor_range_spec fuel xorKey i j hi data :
  0 ≤ i ≤ j → hi ≤ Z.of_nat (length data) → hi - i ≤ Z.of_nat (length xorKey) →
  hi - j ≤ Z.of_nat fuel →
  xor_range fuel xorKey i j hi data
  = Some (pointwise (λ n d, within j hi n (Z.lxor d (default 0 (Go.index xorKey (n - i)))) d) data).
Proof.
  revert j data. induction fuel as [|fuel IH]; intros j data Hi Hhi Hkey Hfuel;
    simpl; destruct (Z.ltb_spec j hi) as [Hlt|Hge]; try lia.
  - f_equal. symmetry. apply pointwise_id. intros n d _. unfold within.
    destruct (Z.leb_spec j n); destruct (Z.ltb_spec n hi); simpl; lia || done.
  - destruct (index_is_Some data j) as [d Ed]; [lia|].
    destruct (index_is_Some xorKey (j - i)) as [k Ek]; [lia|].
    rewrite Ed, Ek. simpl. rewrite store_Some by lia. simpl.
    rewrite IH by (rewrite ?length_pointwise; lia).
    f_equal. rewrite pointwise_compose. apply pointwise_ext. intros n d0 En.
    unfold within.
    destruct (Z.eqb_spec n j) as [->|Hne].
    + assert (d0 = d) as -> by congruence. rewrite Ek. simpl.
      destruct (Z.leb_spec (j + 1) j); destruct (Z.leb_spec j j); destruct (Z.ltb_spec j hi);
        simpl; lia || done.
    + destruct (Z.leb_spec (j + 1) n); destruct (Z.leb_spec j n); destruct (Z.ltb_spec n hi);
        simpl; lia || done.
  - f_equal. symmetry. apply pointwise_id. intros n d _. unfold within.
    destruct (Z.leb_spec j n); destruct (Z.ltb_spec n hi); simpl; lia || done.
Qed.

(** One keystream block over [i .. min(i+8, obfsPartLength)). *)
Lemma xor_block_spec o nonce (k : nat) i obfs data :
  i = 8 * Z.of_nat k → obfs ≤ Z.of_nat (length data) →
  xor_range 8 (block o nonce k) i i (Z.min (i + kObfuscateXORKeyLength) obfs) data
  = Some (pointwise
            (λ n d, within i (Z.min (i + 8) obfs) n (Z.lxor d (keystream o nonce n)) d) data).
Proof.
  intros -> Hlen. unfold kObfuscateXORKeyLength.
  rewrite xor_range_spec by (rewrite ?length_block; lia).
  f_equal. apply pointwise_ext. intros n d _. unfold within.
  destruct (Z.leb_spec (8 * Z.of_nat k) n); destruct (Z.ltb_spec n (Z.min (8 * Z.of_nat k + 8) obfs));
    simpl; try done.
  unfold keystream.
  destruct (block_position k n) as [-> ->]; [lia|]. done.
Qed.

Lemma Obfuscate_loop_spec o nonce fuel (k : nat) i obfs data :
  i = 8 * Z.of_nat k → obfs ≤ Z.of_nat (length data) → obfs - i ≤ Z.of_nat fuel →
  Obfuscate_loop fuel o (digest_at o nonce k) i obfs data
  = Some (pointwise (λ n d, within i obfs n (Z.lxor d (keystream o nonce n)) d) data).
Proof.
  revert k i data. induction fuel as [|fuel IH]; intros k i data Hi Hlen Hfuel;
    cbn [Obfuscate_loop]; destruct (Z.ltb_spec i obfs) as [Hlt|Hge]; try lia.
  - f_equal. symmetry. apply pointwise_id. intros n d _. unfold within.
    destruct (Z.leb_spec i n); destruct (Z.ltb_spec n obfs); simpl; lia || done.
  - change (digest_Write (digest_at o nonce k) (userKeyHash o)) with (digest_at o nonce (S k)).
    rewrite (loop_key o nonce k i Hi), bind_Some.
    rewrite (xor_block_spec o nonce k i obfs data Hi Hlen), bind_Some.
    rewrite (IH (S k)) by (rewrite ?length_pointwise; unfold kObfuscateXORKeyLength; lia).
    f_equal. rewrite pointwise_compose. apply pointwise_ext. intros n d _.
    unfold within, kObfuscateXORKeyLength.
    destruct (Z.leb_spec (i + 8) n); destruct (Z.leb_spec i n); destruct (Z.ltb_spec n obfs);
      destruct (Z.ltb_spec n (Z.min (i + 8) obfs)); simpl; lia || done.
  - f_equal. symmetry. apply pointwise_id. intros n d _. unfold within.
    destruct (Z.leb_spec i n); destruct (Z.ltb_spec n obfs); simpl; lia || done.
Qed.

(** Past block 0 the two loops are the same code. *)
Lemma Deobfuscate_loop_Obfuscate_loop fuel o digest i obfs data :
  0 < i →
  Deobfuscate_loop fuel o digest i obfs data = Obfuscate_loop fuel o digest i obfs data.
Proof.
  revert digest i data. induction fuel as [|fuel IH]; intros digest i data Hi;
    cbn [Deobfuscate_loop Obfuscate_loop]; [done|].
  destruct (Z.ltb_spec i obfs); [|done].
  destruct (Z.eqb_spec i 0); [lia|]. rewrite bind_Some.
  destruct (xor_range _ _ _ _ _ _); [|done]. rewrite !bind_Some.
  apply IH. unfold kObfuscateXORKeyLength. lia.
Qed.

End LoopFacts.

(** ** The two switches *)
Ltac consts :=
  unfold kObfuscatedMaxLength, kObfuscateRandomSuffixMaxLength,
    kObfuscateSuffixAsNonceMinLength, kObfuscateNonceLength, kObfuscateXORKeyLength,
    kMessageInitiationTypeMAC2Offset, kMessageResponseTypeMAC2Offset,
    device.MessageInitiationType, device.MessageResponseType,
    device.MessageCookieReplyType, device.MessageTransportType,
    device.MessageInitiationSize, device.MessageResponseSize,
    device.MessageCookieReplySize, device.MessageTransportHeaderSize,
    device.MinMessageSize, capacity in *.

(** Decide every comparison in the goal, dropping impossible branches. *)
Ltac compare :=
  repeat match goal with
         | |- context [?a =? ?b] =>
             let v := eval cbv in (a =? b) in
             match v with
             | true => change (a =? b) with true
             | false => change (a =? b) with false
             end; cbn [andb negb]; cbv iota
         | |- context [?a <=? ?b] => destruct (Z.leb_spec a b); try lia
         | |- context [?a <? ?b] => destruct (Z.ltb_spec a b); try lia
         | |- context [?a =? ?b] => destruct (Z.eqb_spec a b); try lia
         end;
  cbn [andb negb].

Section SwitchFacts.
Implicit Types (b data : list Z) (i j lo hi t m : Z) (packet : Packet).

Lemma lxor_cancel d k : Z.lxor (Z.lxor d k) k = d.
Proof. by rewrite Z.lxor_assoc, Z.lxor_nilpotent, Z.lxor_0_r. Qed.

Lemma isAllZero_lookup b (n : nat) x : isAllZero b = true → b !! n = Some x → x = 0.
Proof.
  revert n. induction b as [|v b IH]; intros n; [done|]. simpl.
  destruct (Z.eqb_spec v 0) as [->|]; [|done]. simpl. intros Hb.
  destruct n as [|n]; simpl; [congruence|]. by apply IH.
Qed.

Lemma isAllZero_slice data lo hi sl j :
  Go.slice data lo hi = Some sl → isAllZero sl = true → lo ≤ j < hi →
  Go.index data j = Some 0.
Proof.
  intros Hs Hz Hj. pose proof (length_slice _ _ _ _ Hs) as Hlen.
  pose proof (index_slice _ _ _ _ (j - lo) Hs ltac:(lia)) as E.
  replace (lo + (j - lo)) with j in E by lia. rewrite <- E.
  destruct (index_is_Some sl (j - lo)) as [x Ex]; [lia|]. rewrite Ex. f_equal.
  unfold Go.index in Ex. destruct (Z.leb_spec 0 (j - lo)); [|done].
  by eapply isAllZero_lookup.
Qed.

Lemma zero_mac2_Initiation data j :
  zero_mac2 data 1 = true → 132 ≤ j < 148 → Go.index data j = Some 0.
Proof.
  unfold zero_mac2. consts. simpl.
  destruct (Go.slice data 132 148) eqn:Hs; [|done]. intros. by eapply isAllZero_slice.
Qed.

Lemma zero_mac2_Response data j :
  zero_mac2 data 2 = true → 76 ≤ j < 92 → Go.index data j = Some 0.
Proof.
  unfold zero_mac2. consts. simpl.
  destruct (Go.slice data 76 92) eqn:Hs; [|done]. intros. by eapply isAllZero_slice.
Qed.

Lemma packet_eta packet : mkPacket (Data packet) (Length packet) (Flags packet) = packet.
Proof. by destruct packet. Qed.

(** The random fill, once the marker is (or is not) in place. *)
Lemma fill_spec rnd data marker fill len :
  0 ≤ fill ≤ len → len ≤ Z.of_nat (length data) →
  Go.slice (pointwise (λ j d, if marker && (j =? 1) then 1 else d) data) fill len
    ≫= (λ b, Some (Go.write_back
                     (pointwise (λ j d, if marker && (j =? 1) then 1 else d) data)
                     fill len (rand_Read rnd b)))
  = Some (pointwise (padded rnd marker fill len) data).
Proof.
  intros Hf Hl.
  destruct (Go.slice (pointwise _ data) fill len) as [sl|] eqn:Hs.
  2:{ rewrite slice_Some in Hs by (rewrite ?length_pointwise; lia). done. }
  rewrite bind_Some. unfold rand_Read. rewrite (write_back_imap _ _ _ _ _ Hs).
  by rewrite pointwise_compose.
Qed.

Lemma no_marker data : pointwise (λ j d, if false && (j =? 1) then 1 else d) data = data.
Proof. by apply pointwise_id. Qed.

Lemma Obfuscate_switch_spec rnd packet t :
  1 ≤ t ≤ 4 → 0 ≤ Length packet ≤ capacity packet → kObfuscatedMaxLength ≤ capacity packet →
  0 ≤ rand_Int rnd →
  Obfuscate_switch rnd packet t
  = Some (Some (mkPacket
                  (pointwise (padded rnd (plan_marker (Obfuscate_plan rnd packet t))
                                         (plan_fill (Obfuscate_plan rnd packet t))
                                         (plan_length (Obfuscate_plan rnd packet t)))
                             (Data packet))
                  (plan_length (Obfuscate_plan rnd packet t)) (Flags packet),
                plan_obfs (Obfuscate_plan rnd packet t))).
Proof.
  intros Ht HL Hcap Hr.
  pose proof (Z.rem_bound_pos (rand_Int rnd) 384 Hr ltac:(lia)) as Hrem.
  assert (t = 1 ∨ t = 2 ∨ t = 3 ∨ t = 4) as [-> | [-> | [-> | ->]]] by lia;
    unfold Obfuscate_switch, Obfuscate_plan, zero_mac2; consts; simpl (_ =? _); cbv iota.
  - rewrite slice_Some by lia. rewrite bind_Some.
    destruct (isAllZero _); cbn [plan_marker plan_fill plan_length plan_obfs].
    + rewrite store_Some by lia. rewrite !bind_Some.
      pose proof (fill_spec rnd (Data packet) true 132 (148 + 16 + rand_Int rnd `rem` 384) ltac:(lia) ltac:(lia)) as E.
      simpl (true && _) in E.
      destruct (Go.slice _ 132 _); [|done]. rewrite bind_Some in *. by injection E as ->.
    + rewrite !bind_Some.
      pose proof (fill_spec rnd (Data packet) false 148 (148 + 16 + rand_Int rnd `rem` 384) ltac:(lia) ltac:(lia)) as E.
      rewrite no_marker in E.
      destruct (Go.slice _ 148 _); [|done]. rewrite bind_Some in *. by injection E as ->.
  - rewrite slice_Some by lia. rewrite bind_Some.
    destruct (isAllZero _); cbn [plan_marker plan_fill plan_length plan_obfs].
    + rewrite store_Some by lia. rewrite !bind_Some.
      pose proof (fill_spec rnd (Data packet) true 76 (92 + 16 + rand_Int rnd `rem` 384) ltac:(lia) ltac:(lia)) as E.
      simpl (true && _) in E.
      destruct (Go.slice _ 76 _); [|done]. rewrite bind_Some in *. by injection E as ->.
    + rewrite !bind_Some.
      pose proof (fill_spec rnd (Data packet) false 92 (92 + 16 + rand_Int rnd `rem` 384) ltac:(lia) ltac:(lia)) as E.
      rewrite no_marker in E.
      destruct (Go.slice _ 92 _); [|done]. rewrite bind_Some in *. by injection E as ->.
  - cbn [plan_marker plan_fill plan_length plan_obfs]. rewrite !bind_Some.
    pose proof (fill_spec rnd (Data packet) false 64 (64 + 16 + rand_Int rnd `rem` 384) ltac:(lia) ltac:(lia)) as E.
    rewrite no_marker in E.
    destruct (Go.slice _ 64 _); [|done]. rewrite bind_Some in *. by injection E as ->.
  - destruct (Z.ltb_spec (Length packet) 256); cbn [plan_marker plan_fill plan_length plan_obfs].
    + rewrite store_Some by lia. rewrite !bind_Some.
      replace (Length packet + 16 - 16) with (Length packet) by lia.
      pose proof (fill_spec rnd (Data packet) true (Length packet) (Length packet + 16) ltac:(lia) ltac:(lia)) as E.
      simpl (true && _) in E.
      destruct (Go.slice _ (Length packet) _); [|done]. rewrite bind_Some in *.
      by injection E as ->.
    + do 3 f_equal. rewrite <- (packet_eta packet) at 1. f_equal.
      symmetry. apply pointwise_id. intros j d _. unfold padded, within.
      destruct (Z.leb_spec (Length packet) j); destruct (Z.ltb_spec j (Length packet));
        simpl; lia || done.
Qed.

(** The memset of a MAC2 field, once byte 1 is reset. *)
Lemma memset_spec data lo hi :
  0 ≤ lo ≤ hi → hi ≤ Z.of_nat (length data) →
  Go.slice (pointwise (λ j d, if j =? 1 then 0 else d) data) lo hi
    ≫= (λ sl, Some (Go.write_back (pointwise (λ j d, if j =? 1 then 0 else d) data)
                                  lo hi (memset sl 0)))
  = Some (pointwise (λ j d, within lo hi j 0 (if j =? 1 then 0 else d)) data).
Proof.
  intros Hlo Hhi.
  destruct (Go.slice (pointwise _ data) lo hi) as [sl|] eqn:Hs.
  2:{ rewrite slice_Some in Hs by (rewrite ?length_pointwise; lia). done. }
  rewrite bind_Some, memset_imap, (write_back_imap _ _ _ _ _ Hs).
  by rewrite pointwise_compose.
Qed.

Lemma Deobfuscate_switch_spec data len flags t m :
  1 ≤ t ≤ 4 → Go.index data 1 = Some m → 148 ≤ Z.of_nat (length data) →
  Deobfuscate_switch (mkPacket data len flags) t
  = Some (Some (mkPacket (pointwise (restored t m) data) (revealed_length t m len) flags,
                revealed_obfs t m)).
Proof.
  intros Ht Hm Hcap.
  assert (t = 1 ∨ t = 2 ∨ t = 3 ∨ t = 4) as [-> | [-> | [-> | ->]]] by lia;
    unfold Deobfuscate_switch, restored, revealed_length, revealed_obfs; consts;
    cbn [Data Length Flags]; simpl (_ =? _); cbv iota; rewrite ?Hm, ?bind_Some;
    destruct (Z.eqb_spec m 1) as [->|Hne]; simpl (_ && _); cbv iota.
  - rewrite store_Some by lia. rewrite bind_Some.
    pose proof (memset_spec data 132 148 ltac:(lia) ltac:(lia)) as E.
    destruct (Go.slice _ 132 148); [|done]. rewrite bind_Some in *. injection E as ->.
    do 4 f_equal. apply pointwise_ext. intros j d _. unfold within.
    by destruct (j =? 1); destruct ((132 <=? j) && (j <? 148)).
  - by rewrite pointwise_id.
  - rewrite store_Some by lia. rewrite bind_Some.
    pose proof (memset_spec data 76 92 ltac:(lia) ltac:(lia)) as E.
    destruct (Go.slice _ 76 92); [|done]. rewrite bind_Some in *. injection E as ->.
    do 4 f_equal. apply pointwise_ext. intros j d _. unfold within.
    by destruct (j =? 1); destruct ((76 <=? j) && (j <? 92)).
  - by rewrite pointwise_id.
  - by rewrite pointwise_id.
  - by rewrite pointwise_id.
  - rewrite store_Some by lia. by rewrite bind_Some.
  - by rewrite pointwise_id.
Qed.

End SwitchFacts.

(** ** Obfuscate and Deobfuscate in closed form *)
Section CodecFacts.
Context `{Hashes, PacketFlags}.
Implicit Types (o : WireGuardObfuscator) (b data nonce : list Z) (i j lo hi t m : Z)
  (packet : Packet).

Lemma plan_bounds rnd packet t :
  1 ≤ t ≤ 4 → 0 ≤ Length packet ≤ capacity packet → kObfuscatedMaxLength ≤ capacity packet →
  0 ≤ rand_Int rnd →
  16 ≤ plan_length (Obfuscate_plan rnd packet t) ≤ capacity packet
  ∧ 16 ≤ plan_obfs (Obfuscate_plan rnd packet t) ≤ 148.
Proof.
  intros Ht HL Hcap Hr.
  pose proof (Z.rem_bound_pos (rand_Int rnd) 384 Hr ltac:(lia)) as Hrem.
  assert (t = 1 ∨ t = 2 ∨ t = 3 ∨ t = 4) as [-> | [-> | [-> | ->]]] by lia;
    unfold Obfuscate_plan; consts; simpl (_ =? _); cbv iota;
    repeat match goal with
           | |- context [if ?a <? ?b then _ else _] => destruct (Z.ltb_spec a b)
           | |- context [if ?c then _ else _] => destruct c
           end;
    cbn [plan_length plan_obfs]; lia.
Qed.

Lemma read_nonce_Some data len flags :
  16 ≤ len ≤ Z.of_nat (length data) → ∃ nonce, read_nonce (mkPacket data len flags) = Some nonce.
Proof.
  intros Hl. unfold read_nonce. consts. cbn [Data Length].
  rewrite slice_Some by lia. rewrite bind_Some. eauto.
Qed.

(** An update below the last 16 bytes leaves the nonce as it was. *)
Lemma read_nonce_pointwise g data len flags flags' :
  (∀ j d, len - 16 ≤ j → g j d = d) →
  read_nonce (mkPacket (pointwise g data) len flags) = read_nonce (mkPacket data len flags').
Proof.
  intros Hg. unfold read_nonce, Go.slice. consts. cbn [Data Length].
  rewrite length_pointwise.
  destruct (_ && _); [|done]. cbn. do 3 f_equal.
  apply list_eq. intros n. rewrite !lookup_drop, <- !index_nat, index_pointwise.
  destruct (Go.index data _) eqn:E; [|done]. simpl. f_equal. apply Hg. lia.
Qed.

Lemma Obfuscate_spec o rnd packet t :
  enabled o = true → Z.land (Flags packet) PacketFlagObfuscateBeforeSend ≠ 0 →
  MessageType packet = Some t → 1 ≤ t ≤ 4 →
  0 ≤ Length packet ≤ capacity packet → kObfuscatedMaxLength ≤ capacity packet →
  0 ≤ rand_Int rnd →
  ∃ nonce,
    read_nonce (mkPacket
                  (pointwise (padded rnd (plan_marker (Obfuscate_plan rnd packet t))
                                         (plan_fill (Obfuscate_plan rnd packet t))
                                         (plan_length (Obfuscate_plan rnd packet t)))
                             (Data packet))
                  (plan_length (Obfuscate_plan rnd packet t)) (Flags packet)) = Some nonce
    ∧ Obfuscate o rnd packet
      = Some (mkPacket
                (pointwise (masked o nonce (plan_obfs (Obfuscate_plan rnd packet t)))
                   (pointwise (padded rnd (plan_marker (Obfuscate_plan rnd packet t))
                                          (plan_fill (Obfuscate_plan rnd packet t))
                                          (plan_length (Obfuscate_plan rnd packet t)))
                              (Data packet)))
                (plan_length (Obfuscate_plan rnd packet t)) (Flags packet)).
Proof.
  intros Hen Hflag Ht Ht4 HL Hcap Hr.
  destruct (plan_bounds rnd packet t Ht4 HL Hcap Hr) as [Hlen Hobfs].
  set (pl := Obfuscate_plan rnd packet t) in *.
  set (D := pointwise _ (Data packet)).
  destruct (read_nonce_Some D (plan_length pl) (Flags packet)) as [nonce Hn].
  { subst D. rewrite length_pointwise. consts. lia. }
  exists nonce. split; [done|].
  unfold Obfuscate. rewrite Hen. cbn [negb].
  destruct (Z.eqb_spec (Z.land (Flags packet) PacketFlagObfuscateBeforeSend) 0); [done|].
  rewrite Ht, bind_Some, (Obfuscate_switch_spec rnd packet t Ht4 HL Hcap Hr), bind_Some.
  fold pl. fold D. rewrite Hn, bind_Some. cbn [Data Length Flags].
  change (digest_Write digest_Reset nonce) with (digest_at o nonce 0).
  rewrite (Obfuscate_loop_spec o nonce _ 0 0 (plan_obfs pl) D); [done|done| |lia].
  subst D. rewrite length_pointwise. consts. lia.
Qed.

(** The pass-through test, once the four bytes are known. *)
Lemma is_wireguard_header_eval data (a b c d : Z) :
  Go.index data 0 = Some a → Go.index data 1 = Some b →
  Go.index data 2 = Some c → Go.index data 3 = Some d →
  is_wireguard_header data
  = Some ((1 <=? a) && (a <=? 4) && (b =? 0) && (c =? 0) && (d =? 0)).
Proof.
  intros Ha Hb Hc Hd. unfold is_wireguard_header. rewrite Ha, Hb, Hc, Hd. simpl.
  by destruct (1 <=? a), (a <=? 4), (b =? 0), (c =? 0), (d =? 0).
Qed.

Lemma is_wireguard_header_inv data :
  is_wireguard_header data = Some true →
  ∃ t, Go.index data 0 = Some t ∧ 1 ≤ t ≤ 4
       ∧ Go.index data 1 = Some 0 ∧ Go.index data 2 = Some 0 ∧ Go.index data 3 = Some 0.
Proof.
  unfold is_wireguard_header, and_then.
  destruct (Go.index data 0) as [a|]; [|done]. simpl.
  destruct (Z.leb_spec 1 a); [|done]. destruct (Z.leb_spec a 4); [|done].
  destruct (Go.index data 1) as [b|]; [|done]. simpl.
  destruct (Z.eqb_spec b 0) as [->|]; [|done].
  destruct (Go.index data 2) as [c|]; [|done]. simpl.
  destruct (Z.eqb_spec c 0) as [->|]; [|done].
  destruct (Go.index data 3) as [d|]; [|done]. simpl.
  destruct (Z.eqb_spec d 0) as [->|]; [|done].
  intros _. exists a. split_and!; done || lia.
Qed.

(** The first keystream block always has one of the bits the mask tests. *)
Lemma keystream_header o nonce :
  ¬ (Z.land (keystream o nonce 0) 0xf8 = 0 ∧ Z.land (keystream o nonce 1) 0xfe = 0).
Proof.
  unfold keystream. change (Z.to_nat (0 / 8)) with 0%nat. change (Z.to_nat (1 / 8)) with 0%nat.
  change (0 mod 8) with 0. change (1 mod 8) with 1. unfold block.
  destruct (modifyHashMask_spec (digest_Sum (digest_at o nonce 1)))
    as (b' & k0 & k1 & Hb & _ & E0 & E1 & Hk); [simpl; lia|].
  rewrite Hb. change (default _ (Some b')) with b'. by rewrite E0, E1.
Qed.

(** A header [{1..4, 0 or 1, ...}] under such a block is not a plain header. *)
Lemma masked_header_not_plain t m k0 k1 :
  1 ≤ t ≤ 4 → m = 0 ∨ m = 1 →
  ¬ (Z.land k0 0xf8 = 0 ∧ Z.land k1 0xfe = 0) →
  ¬ (1 ≤ Z.lxor t k0 ≤ 4 ∧ Z.lxor m k1 = 0).
Proof.
  intros Ht Hm Hk [Hr Hz]. apply Hk. split.
  - assert (k0 = Z.lxor t (Z.lxor t k0)) as ->
      by (by rewrite <- Z.lxor_assoc, Z.lxor_nilpotent, Z.lxor_0_l).
    set (r := Z.lxor t k0) in *.
    assert (t = 1 ∨ t = 2 ∨ t = 3 ∨ t = 4) as [-> | [-> | [-> | ->]]] by lia;
      assert (r = 1 ∨ r = 2 ∨ r = 3 ∨ r = 4) as [-> | [-> | [-> | ->]]] by lia; done.
  - apply Z.lxor_eq in Hz as <-. by destruct Hm as [-> | ->].
Qed.

Lemma masked_header o nonce obfs data t m :
  Go.index data 0 = Some t → Go.index data 1 = Some m → 4 ≤ Z.of_nat (length data) →
  1 ≤ t ≤ 4 → m = 0 ∨ m = 1 → 2 ≤ obfs →
  is_wireguard_header (pointwise (masked o nonce obfs) data) = Some false.
Proof.
  intros Ea Eb Hlen Ht Hm Hobfs.
  destruct (index_is_Some data 2) as [c Hc]; [lia|].
  destruct (index_is_Some data 3) as [d Hd]; [lia|].
  erewrite is_wireguard_header_eval; cycle 1.
  { by rewrite index_pointwise, Ea. } { by rewrite index_pointwise, Eb. }
  { by rewrite index_pointwise, Hc. } { by rewrite index_pointwise, Hd. }
  f_equal. unfold masked, within.
  destruct (Z.ltb_spec 0 obfs); [|lia]. destruct (Z.ltb_spec 1 obfs); [|lia].
  simpl (_ && _).
  pose proof (masked_header_not_plain t m _ _ Ht Hm (keystream_header o nonce)) as Hn.
  destruct (Z.leb_spec 1 (Z.lxor t (keystream o nonce 0))); [|reflexivity].
  destruct (Z.leb_spec (Z.lxor t (keystream o nonce 0)) 4); [|reflexivity].
  destruct (Z.eqb_spec (Z.lxor m (keystream o nonce 1)) 0); [|reflexivity].
  exfalso. apply Hn. lia.
Qed.

(** The first block of Deobfuscate. *)
Lemma first_block_spec o nonce data :
  8 ≤ Z.of_nat (length data) →
  xor_range 8 (block o nonce 0) 0 0 kObfuscateXORKeyLength data
  = Some (pointwise (masked o nonce 8) data).
Proof.
  intros Hlen. unfold kObfuscateXORKeyLength.
  rewrite xor_range_spec by (rewrite ?length_block; lia).
  f_equal. apply pointwise_ext. intros n d _. unfold masked, within.
  destruct (Z.leb_spec 0 n); destruct (Z.ltb_spec n 8); cbn [andb]; try reflexivity.
  unfold keystream. destruct (block_position 0 n) as [-> ->]; [lia|].
  change (8 * Z.of_nat 0) with 0. by rewrite !Z.sub_0_r.
Qed.

Lemma revealed_obfs_bounds t m : 16 ≤ revealed_obfs t m ≤ 148.
Proof. unfold revealed_obfs. consts. compare; lia. Qed.

(** Revealing the first block of a masked packet. *)
Lemma masked_first o nonce obfs j d :
  0 ≤ j < 8 → 8 ≤ obfs → masked o nonce 8 j (masked o nonce obfs j d) = d.
Proof. intros Hj Hobfs. unfold masked, within. compare. by rewrite lxor_cancel. Qed.

Lemma Deobfuscate_spec o data len flags nonce t m :
  enabled o = true →
  Go.index data 0 = Some t → Go.index data 1 = Some m → 1 ≤ t ≤ 4 → m = 0 ∨ m = 1 →
  revealed_obfs t m + 16 ≤ len → len ≤ Z.of_nat (length data) → 148 ≤ Z.of_nat (length data) →
  read_nonce (mkPacket data len flags) = Some nonce →
  Deobfuscate o (mkPacket (pointwise (masked o nonce (revealed_obfs t m)) data) len flags)
  = Some (mkPacket (pointwise (restored t m) data) (revealed_length t m len)
                   (Z.lor flags PacketFlagDeobfuscatedAfterReceived)).
Proof.
  intros Hen Et Em Ht Hm Hobfs Hlen Hcap Hn.
  pose proof (revealed_obfs_bounds t m) as Hb.
  set (obfs := revealed_obfs t m) in *.
  unfold Deobfuscate. rewrite Hen. cbn [negb Data Length Flags].
  destruct (Z.ltb_spec len device.MinMessageSize) as [Hshort|_]; [consts; lia|].
  rewrite (masked_header o nonce obfs data t m) by (done || lia). rewrite bind_Some.
  rewrite (read_nonce_pointwise _ data len flags flags), Hn, bind_Some.
  2:{ intros j d Hj. unfold masked, within. compare. done. }
  change (digest_Write (digest_Write digest_Reset nonce) (userKeyHash o))
    with (digest_at o nonce 1).
  pose proof (loop_key o nonce 0 0 eq_refl) as Hk.
  change (0 =? 0) with true in Hk. cbv iota in Hk. rewrite Hk, bind_Some. clear Hk.
  rewrite first_block_spec by (rewrite length_pointwise; lia). rewrite bind_Some.
  rewrite pointwise_compose.
  unfold MessageType. cbn [Data]. rewrite index_pointwise, Et.
  cbn [fmap option_fmap option_map]. rewrite masked_first by lia. rewrite bind_Some.
  rewrite (Deobfuscate_switch_spec _ len flags t m Ht); cycle 1.
  { rewrite index_pointwise, Em. cbn [fmap option_fmap option_map].
    by rewrite masked_first by lia. }
  { rewrite length_pointwise. lia. }
  rewrite bind_Some. fold obfs. cbn [Data Length Flags].
  rewrite Deobfuscate_loop_Obfuscate_loop by (consts; lia).
  rewrite (Obfuscate_loop_spec o nonce _ 1 kObfuscateXORKeyLength obfs);
    [|done|rewrite !length_pointwise; lia|consts; lia].
  rewrite bind_Some. do 2 f_equal. rewrite !pointwise_compose.
  apply pointwise_ext. intros j d _.
  unfold obfs, masked, restored, revealed_obfs, within. consts.
  assert (t = 1 ∨ t = 2 ∨ t = 3 ∨ t = 4) as [-> | [-> | [-> | ->]]] by lia;
    destruct Hm as [-> | ->]; compare; rewrite ?lxor_cancel; try done.
Qed.

(** What the plan of Obfuscate means for a frame of the right length: the
    decoder finds the same part to decode and the original length, and the
    bytes it resets undo the padding inside the frame. *)
Lemma plan_facts rnd packet t :
  1 ≤ t ≤ 4 → frame_length_ok t (Length packet) = true → 0 ≤ rand_Int rnd →
  let pl := Obfuscate_plan rnd packet t in
  let m := if plan_marker pl then 1 else 0 in
  revealed_obfs t m = plan_obfs pl
  ∧ 16 ≤ plan_fill pl
  ∧ plan_obfs pl + 16 ≤ plan_length pl
  ∧ revealed_length t m (plan_length pl) = Length packet
  ∧ (∀ j d, 0 ≤ j < Length packet → Go.index (Data packet) j = Some d →
            Go.index (Data packet) 1 = Some 0 →
            restored t m j (padded rnd (plan_marker pl) (plan_fill pl) (plan_length pl) j d) = d).
Proof.
  intros Ht Hlen Hr.
  pose proof (Z.rem_bound_pos (rand_Int rnd) 384 Hr ltac:(lia)) as Hrem.
  unfold frame_length_ok in Hlen.
  assert (t = 1 ∨ t = 2 ∨ t = 3 ∨ t = 4) as [-> | [-> | [-> | ->]]] by lia;
    unfold Obfuscate_plan, revealed_obfs, revealed_length, restored, padded, within;
    consts; simpl (_ =? _) in *; cbv iota in *.
  - apply Z.eqb_eq in Hlen.
    destruct (zero_mac2 (Data packet) 1) eqn:Hz;
      cbn [plan_marker plan_obfs plan_fill plan_length]; simpl (_ =? _); cbv iota;
      split_and!; try lia; intros j d Hj Ej E1; compare; try congruence.
    pose proof (zero_mac2_Initiation _ j Hz ltac:(lia)). congruence.
  - apply Z.eqb_eq in Hlen.
    destruct (zero_mac2 (Data packet) 2) eqn:Hz;
      cbn [plan_marker plan_obfs plan_fill plan_length]; simpl (_ =? _); cbv iota;
      split_and!; try lia; intros j d Hj Ej E1; compare; try congruence.
    pose proof (zero_mac2_Response _ j Hz ltac:(lia)). congruence.
  - apply Z.eqb_eq in Hlen.
    cbn [plan_marker plan_obfs plan_fill plan_length]; simpl (_ =? _); cbv iota;
      split_and!; try lia; intros j d Hj Ej E1; compare; try congruence.
  - apply Z.leb_le in Hlen.
    destruct (Z.ltb_spec (Length packet) 256);
      cbn [plan_marker plan_obfs plan_fill plan_length]; simpl (_ =? _); cbv iota;
      split_and!; try lia; intros j d Hj Ej E1; compare; try congruence.
Qed.

Lemma slice_ext b b' lo hi :
  length b = length b' → (∀ j, lo ≤ j < hi → Go.index b j = Go.index b' j) →
  Go.slice b lo hi = Go.slice b' lo hi.
Proof.
  intros Hlen E. unfold Go.slice. rewrite <- Hlen.
  destruct (Z.leb_spec 0 lo); [|done]. destruct (Z.leb_spec lo hi); [|done].
  destruct (Z.leb_spec hi (Z.of_nat (length b))); [|done]. cbn [andb]. f_equal.
  apply list_eq. intros n.
  destruct (decide (n < Z.to_nat (hi - lo))%nat) as [Hn|Hn].
  - rewrite !lookup_take_lt, !lookup_drop, <- !index_nat by done. apply E. lia.
  - rewrite !lookup_take_ge by lia. done.
Qed.

Lemma Initialize_enabled o userKey :
  userKey ≠ EmptyString → enabled (Initialize o userKey) = true.
Proof. by destruct userKey. Qed.

Lemma Initialize_empty o : enabled (Initialize o EmptyString) = false.
Proof. done. Qed.

Lemma Obfuscate_disabled o rnd packet :
  enabled o = false → Obfuscate o rnd packet = Some packet.
Proof. intros E. unfold Obfuscate. by rewrite E. Qed.

Lemma Obfuscate_flag_clear o rnd packet :
  Z.land (Flags packet) PacketFlagObfuscateBeforeSend = 0 → Obfuscate o rnd packet = Some packet.
Proof.
  intros E. unfold Obfuscate. rewrite E. by destruct (enabled o).
Qed.

Lemma Deobfuscate_disabled o packet : enabled o = false → Deobfuscate o packet = Some packet.
Proof. intros E. unfold Deobfuscate. by rewrite E. Qed.

Lemma Deobfuscate_short o packet :
  Length packet < device.MinMessageSize → Deobfuscate o packet = Some packet.
Proof.
  intros Hl. unfold Deobfuscate. destruct (enabled o); [|done]. cbn [negb].
  by destruct (Z.ltb_spec (Length packet) device.MinMessageSize); [|lia].
Qed.

Lemma Deobfuscate_plain o packet :
  is_wireguard_header (Data packet) = Some true → Deobfuscate o packet = Some packet.
Proof.
  intros Hh. unfold Deobfuscate. destruct (enabled o); [|done]. cbn [negb].
  destruct (Length packet <? device.MinMessageSize); [done|]. by rewrite Hh.
Qed.

Lemma frame_length_ok_min t len : frame_length_ok t len = true → 16 ≤ len.
Proof. unfold frame_length_ok. consts. compare; done || lia. Qed.

Lemma frame_length_ok_type t len : frame_length_ok t len = true → 1 ≤ t ≤ 4.
Proof. unfold frame_length_ok. consts. compare; done || lia. Qed.

Lemma wireguard_frame_inv packet :
  wireguard_frame packet = true →
  ∃ t, MessageType packet = Some t ∧ 1 ≤ t ≤ 4
       ∧ frame_length_ok t (Length packet) = true
       ∧ 16 ≤ Length packet ≤ capacity packet.
Proof.
  unfold wireguard_frame. destruct (MessageType packet) as [t|]; [|done].
  intros [Hf Hc%Z.leb_le]%andb_true_iff. exists t.
  pose proof (frame_length_ok_min _ _ Hf). pose proof (frame_length_ok_type _ _ Hf).
  split_and!; done || lia.
Qed.

(** The padding leaves the type byte of a frame in place, and byte 1 holds
    the marker or what it held. *)
Lemma padded_header rnd marker fill len data t m :
  16 ≤ fill → Go.index data 0 = Some t → Go.index data 1 = Some m →
  Go.index (pointwise (padded rnd marker fill len) data) 0 = Some t
  ∧ Go.index (pointwise (padded rnd marker fill len) data) 1
    = Some (if marker then 1 else m).
Proof.
  intros Hf E0 E1. rewrite !index_pointwise, E0, E1. unfold padded, within.
  cbn [fmap option_fmap option_map]. compare; by destruct marker.
Qed.

(** Obfuscate then Deobfuscate on a WireGuard frame whose byte 1 is zero. *)
Lemma roundtrip_spec o rnd packet t :
  enabled o = true → Z.land (Flags packet) PacketFlagObfuscateBeforeSend ≠ 0 →
  MessageType packet = Some t → frame_length_ok t (Length packet) = true →
  Go.index (Data packet) 1 = Some 0 →
  Length packet ≤ capacity packet → kObfuscatedMaxLength ≤ capacity packet →
  0 ≤ rand_Int rnd →
  ∃ nonce,
    Obfuscate o rnd packet
    = Some (mkPacket
              (pointwise (masked o nonce (plan_obfs (Obfuscate_plan rnd packet t)))
                 (pointwise (padded rnd (plan_marker (Obfuscate_plan rnd packet t))
                                        (plan_fill (Obfuscate_plan rnd packet t))
                                        (plan_length (Obfuscate_plan rnd packet t)))
                            (Data packet)))
              (plan_length (Obfuscate_plan rnd packet t)) (Flags packet))
    ∧ read_nonce
        (mkPacket
           (pointwise (masked o nonce (plan_obfs (Obfuscate_plan rnd packet t)))
              (pointwise (padded rnd (plan_marker (Obfuscate_plan rnd packet t))
                                     (plan_fill (Obfuscate_plan rnd packet t))
                                     (plan_length (Obfuscate_plan rnd packet t)))
                         (Data packet)))
           (plan_length (Obfuscate_plan rnd packet t)) (Flags packet))
      = Some nonce
    ∧ ∃ back,
        Deobfuscate o
          (mkPacket
             (pointwise (masked o nonce (plan_obfs (Obfuscate_plan rnd packet t)))
                (pointwise (padded rnd (plan_marker (Obfuscate_plan rnd packet t))
                                       (plan_fill (Obfuscate_plan rnd packet t))
                                       (plan_length (Obfuscate_plan rnd packet t)))
                           (Data packet)))
             (plan_length (Obfuscate_plan rnd packet t)) (Flags packet))
        = Some back
        ∧ Length back = Length packet
        ∧ Flags back = Z.lor (Flags packet) PacketFlagDeobfuscatedAfterReceived
        ∧ length (Data back) = length (Data packet)
        ∧ ∀ j, 0 ≤ j < Length packet → Go.index (Data back) j = Go.index (Data packet) j.
Proof.
  intros Hen Hflag Ht Hf E1 Hlen Hcap Hr.
  pose proof (frame_length_ok_min _ _ Hf) as Hmin.
  pose proof (frame_length_ok_type _ _ Hf) as Ht4.
  destruct (Obfuscate_spec o rnd packet t Hen Hflag Ht Ht4 ltac:(lia) Hcap Hr)
    as (nonce & Hn & HW).
  destruct (plan_facts rnd packet t Ht4 Hf Hr) as (Hobfs & Hfill & Hl16 & Hrl & Hrest).
  destruct (plan_bounds rnd packet t Ht4 ltac:(lia) Hcap Hr) as [Hpl _].
  set (pl := Obfuscate_plan rnd packet t) in *.
  set (m := if plan_marker pl then 1 else 0) in *.
  set (D := pointwise _ (Data packet)) in *.
  destruct (padded_header rnd (plan_marker pl) (plan_fill pl) (plan_length pl)
              (Data packet) t 0 Hfill Ht E1) as [D0 D1].
  fold D in D0, D1. fold m in D1.
  assert (Z.of_nat (length D) = capacity packet) as HlD
    by (subst D; by rewrite length_pointwise).
  pose proof (Deobfuscate_spec o D (plan_length pl) (Flags packet) nonce t m
                Hen D0 D1 Ht4) as HD.
  rewrite Hobfs in HD.
  exists nonce. split; [done|]. split.
  { rewrite <- Hn. apply read_nonce_pointwise. intros j d Hj.
    unfold masked, within. compare. done. }
  eexists. split.
  { apply HD; [subst m; destruct (plan_marker pl); lia|lia|lia| |done].
    rewrite HlD. consts. lia. }
  cbn [Data Length Flags]. split_and!; [done|done| |].
  - subst D. by rewrite !length_pointwise.
  - intros j Hj. subst D. rewrite !index_pointwise.
    destruct (Go.index (Data packet) j) as [d|] eqn:Ej; [|done].
    cbn [fmap option_fmap option_map]. f_equal. by apply Hrest.
Qed.

Lemma zero_mac2_ext b b' t len :
  length b = length b' → frame_length_ok t len = true →
  (∀ j, 0 ≤ j < len → Go.index b j = Go.index b' j) →
  zero_mac2 b t = zero_mac2 b' t.
Proof.
  intros Hsize Hf Hbytes. unfold zero_mac2, frame_length_ok in *. consts.
  destruct (Z.eqb_spec t 1) as [->|_].
  { apply Z.eqb_eq in Hf. erewrite (slice_ext b); [done|done|].
    intros j Hj. apply Hbytes. lia. }
  destruct (Z.eqb_spec t 2) as [->|_]; [|done].
  apply Z.eqb_eq in Hf. erewrite (slice_ext b); [done|done|].
  intros j Hj. apply Hbytes. lia.
Qed.

Lemma Deobfuscate_switch_other packet t :
  ¬ (1 ≤ t ≤ 4) → Deobfuscate_switch packet t = Some None.
Proof. intros Ht. unfold Deobfuscate_switch. consts. compare. done. Qed.

End CodecFacts.

(** ** The codec *)
Section Claims.
Context `{Hashes, PacketFlags}.
Implicit Types (o : WireGuardObfuscator) (rnd : Rand) (packet : Packet).

(** C1. Round trip. For every canonical WireGuard frame (type 1..4, bytes
    1..3 zero, the length of its type), every non-empty user key and every
    random suffix and nonce drawn by Obfuscate, Deobfuscate after Obfuscate
    returns a packet of the original length whose bytes below that length
    are the original ones: byte 1 is zero again, an all-zero MAC2 is all
    zero again, the suffix and the nonce lie beyond the length. *)
Theorem roundtrip_canonical o userKey rnd packet :
  userKey ≠ EmptyString →
  canonical_frame packet = true →
  kObfuscatedMaxLength ≤ capacity packet →
  0 ≤ rand_Int rnd →
  ∃ wire back,
    Obfuscate (Initialize o userKey) rnd packet = Some wire
    ∧ Deobfuscate (Initialize o userKey) wire = Some back
    ∧ Length back = Length packet
    ∧ Go.index (Data back) 1 = Some 0
    ∧ (∀ lo hi, 0 ≤ lo ≤ hi → hi ≤ Length packet →
         Go.slice (Data back) lo hi = Go.slice (Data packet) lo hi)
    ∧ (∀ t, MessageType packet = Some t →
         zero_mac2 (Data back) t = zero_mac2 (Data packet) t).
Proof.
  intros Hkey [Hframe Hplain%bool_decide_eq_true]%andb_true_iff Hcap Hr.
  pose proof (Initialize_enabled o userKey Hkey) as Hen.
  set (O := Initialize o userKey) in *.
  destruct (wireguard_frame_inv packet Hframe) as (t & Ht & Ht4 & Hf & Hlen).
  destruct (is_wireguard_header_inv _ Hplain) as (t' & E0 & _ & E1 & _).
  assert (∃ wire back,
    Obfuscate O rnd packet = Some wire ∧ Deobfuscate O wire = Some back
    ∧ Length back = Length packet ∧ length (Data back) = length (Data packet)
    ∧ ∀ j, 0 ≤ j < Length packet → Go.index (Data back) j = Go.index (Data packet) j)
    as (wire & back & HW & HB & HL & Hsize & Hbytes).
  { destruct (Z.eq_dec (Z.land (Flags packet) PacketFlagObfuscateBeforeSend) 0) as [Hz|Hnz].
    - exists packet, packet. rewrite Obfuscate_flag_clear, Deobfuscate_plain by done. done.
    - destruct (roundtrip_spec O rnd packet t Hen Hnz Ht Hf E1 ltac:(lia) Hcap Hr)
        as (nonce & HW & _ & back & HB & HL & _ & Hsize & Hbytes).
      eauto 10. }
  exists wire, back. split_and!; try done.
  - rewrite Hbytes, E1 by lia. done.
  - intros lo hi Hlo Hhi. apply slice_ext; [done|]. intros j Hj. apply Hbytes. lia.
  - intros t1 Ht1. assert (t1 = t) as -> by congruence.
    by apply (zero_mac2_ext _ _ t (Length packet)).
Qed.

(** C2. Header disambiguation. For every key hash, every nonce and random
    suffix, and every WireGuard frame of type 1..4 whose byte 1 is 0 or the
    marker 1, the first four bytes Obfuscate produces are never
    [{1..4, 0, 0, 0}]: the pass-through test of Deobfuscate fails on them. *)
Theorem header_disambiguation o rnd packet m :
  enabled o = true →
  Z.land (Flags packet) PacketFlagObfuscateBeforeSend ≠ 0 →
  wireguard_frame packet = true →
  Go.index (Data packet) 1 = Some m → m = 0 ∨ m = 1 →
  kObfuscatedMaxLength ≤ capacity packet →
  0 ≤ rand_Int rnd →
  ∃ wire, Obfuscate o rnd packet = Some wire
          ∧ is_wireguard_header (Data wire) = Some false.
Proof.
  intros Hen Hflag Hframe E1 Hm Hcap Hr.
  destruct (wireguard_frame_inv packet Hframe) as (t & Ht & Ht4 & Hf & Hlen).
  destruct (Obfuscate_spec o rnd packet t Hen Hflag Ht Ht4 ltac:(lia) Hcap Hr)
    as (nonce & _ & HW).
  destruct (plan_facts rnd packet t Ht4 Hf Hr) as (_ & Hfill & _).
  destruct (plan_bounds rnd packet t Ht4 ltac:(lia) Hcap Hr) as [_ Hobfs].
  eexists. split; [exact HW|]. cbn [Data].
  destruct (padded_header rnd (plan_marker (Obfuscate_plan rnd packet t))
              (plan_fill (Obfuscate_plan rnd packet t))
              (plan_length (Obfuscate_plan rnd packet t)) (Data packet) t m Hfill Ht E1)
    as [D0 D1].
  eapply masked_header; [exact D0|exact D1| |done| |lia].
  - rewrite length_pointwise. consts. lia.
  - destruct (plan_marker _); [by right|done].
Qed.

(** C3. Pass-through. A packet of at least MinMessageSize bytes whose first
    four bytes are [{1..4, 0, 0, 0}] comes out of Deobfuscate as it went in,
    data, length and flags, whatever the user key. *)
Theorem Deobfuscate_pass_through o userKey packet :
  device.MinMessageSize ≤ Length packet →
  is_wireguard_header (Data packet) = Some true →
  Deobfuscate (Initialize o userKey) packet = Some packet.
Proof. intros _ Hplain. by apply Deobfuscate_plain. Qed.

(** C5. Length bounds. When Obfuscate runs (obfuscator enabled, flag set):
    a handshake frame leaves with a length in
    [[fixed_size + 16, fixed_size + 16 + 384)]; a transport frame shorter
    than 256 leaves 16 bytes longer; a longer one keeps its length. *)
Theorem Obfuscate_length_bounds o rnd packet t :
  enabled o = true →
  Z.land (Flags packet) PacketFlagObfuscateBeforeSend ≠ 0 →
  MessageType packet = Some t → 1 ≤ t ≤ 4 →
  0 ≤ Length packet ≤ capacity packet →
  kObfuscatedMaxLength ≤ capacity packet →
  0 ≤ rand_Int rnd →
  ∃ wire,
    Obfuscate o rnd packet = Some wire
    ∧ (t ≠ device.MessageTransportType →
         fixed_size t + kObfuscateNonceLength ≤ Length wire
         < fixed_size t + kObfuscateNonceLength + kObfuscateRandomSuffixMaxLength)
    ∧ (t = device.MessageTransportType →
         Length packet < kObfuscateSuffixAsNonceMinLength →
         Length wire = Length packet + kObfuscateNonceLength)
    ∧ (t = device.MessageTransportType →
         kObfuscateSuffixAsNonceMinLength ≤ Length packet →
         Length wire = Length packet).
Proof.
  intros Hen Hflag Ht Ht4 Hlen Hcap Hr.
  destruct (Obfuscate_spec o rnd packet t Hen Hflag Ht Ht4 Hlen Hcap Hr) as (nonce & _ & HW).
  eexists. split; [exact HW|]. cbn [Length].
  pose proof (Z.rem_bound_pos (rand_Int rnd) 384 Hr ltac:(lia)) as Hrem.
  unfold Obfuscate_plan, fixed_size. consts.
  assert (t = 1 ∨ t = 2 ∨ t = 3 ∨ t = 4) as [-> | [-> | [-> | ->]]] by lia;
    simpl (_ =? _); cbv iota;
    repeat match goal with
           | |- context [if ?a <? ?b then _ else _] => destruct (Z.ltb_spec a b)
           | |- context [if zero_mac2 ?d ?t then _ else _] => destruct (zero_mac2 d t)
           end;
    cbn [plan_length]; lia.
Qed.

(** C6. Deobfuscate is idempotent on canonical input: on a packet whose
    first four bytes are [{1..4, 0, 0, 0}], a second Deobfuscate returns what
    the first returned, whatever the user key. *)
Theorem Deobfuscate_idempotent_canonical o userKey packet :
  is_wireguard_header (Data packet) = Some true →
  ∃ once,
    Deobfuscate (Initialize o userKey) packet = Some once
    ∧ Deobfuscate (Initialize o userKey) once = Some once.
Proof. intros Hplain. exists packet. by rewrite Deobfuscate_plain. Qed.

(** C7. An obfuscator initialized with the empty key is disabled, and then
    Obfuscate and Deobfuscate return every packet as it is; and whatever the
    obfuscator, Obfuscate returns as it is every packet whose
    ObfuscateBeforeSend flag is clear. *)
Theorem disabled_identity o rnd packet :
  enabled (Initialize o EmptyString) = false
  ∧ Obfuscate (Initialize o EmptyString) rnd packet = Some packet
  ∧ Deobfuscate (Initialize o EmptyString) packet = Some packet
  ∧ (∀ o', Z.land (Flags packet) PacketFlagObfuscateBeforeSend = 0 →
           Obfuscate o' rnd packet = Some packet).
Proof.
  split_and!; [done|by apply Obfuscate_disabled|by apply Deobfuscate_disabled|].
  intros o' Hclear. by apply Obfuscate_flag_clear.
Qed.

(** C8. A packet shorter than MinMessageSize comes out of Deobfuscate as it
    went in, data, length and flags, whatever the user key. *)
Theorem Deobfuscate_short_untouched o userKey packet :
  Length packet < device.MinMessageSize →
  Deobfuscate (Initialize o userKey) packet = Some packet.
Proof. apply Deobfuscate_short. Qed.

(** C4, as the code has it. When a Response frame with an all-zero MAC2 is
    obfuscated, the marker [0x01] is written to byte 1 before the keystream
    is applied: the wire packet carries [0x01 xor keystream[1]] there. The
    MAC2 region holds random bytes, outside the keystream, and Deobfuscate
    returns a packet with MAC2 all zero and byte 1 zero. *)
Theorem zero_mac2_response o rnd packet :
  enabled o = true →
  Z.land (Flags packet) PacketFlagObfuscateBeforeSend ≠ 0 →
  canonical_frame packet = true →
  MessageType packet = Some device.MessageResponseType →
  zero_mac2 (Data packet) device.MessageResponseType = true →
  kObfuscatedMaxLength ≤ capacity packet →
  0 ≤ rand_Int rnd →
  ∃ wire nonce back,
    Obfuscate o rnd packet = Some wire
    ∧ read_nonce wire = Some nonce
    ∧ Go.index (Data wire) 1 = Some (Z.lxor 0x01 (keystream o nonce 1))
    ∧ (∀ j, kMessageResponseTypeMAC2Offset ≤ j < device.MessageResponseSize →
         Go.index (Data wire) j
         = Some (rand_byte rnd (Z.to_nat (j - kMessageResponseTypeMAC2Offset))))
    ∧ Deobfuscate o wire = Some back
    ∧ zero_mac2 (Data back) device.MessageResponseType = true
    ∧ Go.index (Data back) 1 = Some 0.
Proof.
  intros Hen Hflag [Hframe Hplain%bool_decide_eq_true]%andb_true_iff Ht Hz Hcap Hr.
  destruct (wireguard_frame_inv packet Hframe) as (t & Ht' & Ht4 & Hf & Hlen).
  assert (t = device.MessageResponseType) as -> by congruence. clear Ht'.
  destruct (is_wireguard_header_inv _ Hplain) as (t' & E0 & _ & E1 & _).
  destruct (roundtrip_spec o rnd packet _ Hen Hflag Ht Hf E1 ltac:(lia) Hcap Hr)
    as (nonce & HW & Hn & back & HB & HL & _ & Hsize & Hbytes).
  pose proof (Z.rem_bound_pos (rand_Int rnd) 384 Hr ltac:(lia)) as Hrem.
  eexists _, nonce, back. split; [exact HW|].
  split; [exact Hn|]. cbn [Data].
  assert (Obfuscate_plan rnd packet device.MessageResponseType
          = mkPlan true 76 76 (92 + 16 + rand_Int rnd `rem` 384)) as Hpl.
  { unfold Obfuscate_plan. consts. simpl (_ =? _). cbv iota. by rewrite Hz. }
  consts. rewrite Hpl in *. clear Hpl.
  cbn [plan_marker plan_obfs plan_fill plan_length] in *.
  unfold frame_length_ok in Hf. consts. simpl (_ =? _) in Hf. cbv iota in Hf.
  apply Z.eqb_eq in Hf.
  split_and!; [| |done| |].
  - rewrite !index_pointwise, E1. reflexivity.
  - intros j Hj. destruct (index_is_Some (Data packet) j) as [d Ed]; [lia|].
    rewrite !index_pointwise, Ed. cbn [fmap option_fmap option_map]. f_equal.
    unfold masked, padded, within. compare. done.
  - rewrite <- Hz. apply (zero_mac2_ext _ _ 2 (Length packet)); [done| |done].
    unfold frame_length_ok. simpl (_ =? _). cbv iota. consts. by apply Z.eqb_eq.
  - rewrite Hbytes, E1 by lia. done.
Qed.

(** C10. With the obfuscator enabled, a packet of at least MinMessageSize
    bytes that fails the pass-through test and whose first byte, under the
    first keystream block, is not a message type 1..4 comes out of
    Deobfuscate changed in its first eight bytes at most: the bytes from
    index 8 on, the length and the flags are as they were. *)
Theorem Deobfuscate_unknown_type o packet t :
  enabled o = true →
  device.MinMessageSize ≤ Length packet ≤ capacity packet →
  is_wireguard_header (Data packet) = Some false →
  revealed_type o packet = Some t → ¬ (1 ≤ t ≤ 4) →
  ∃ back,
    Deobfuscate o packet = Some back
    ∧ drop 8 (Data back) = drop 8 (Data packet)
    ∧ length (Data back) = length (Data packet)
    ∧ Length back = Length packet
    ∧ Flags back = Flags packet.
Proof.
  intros Hen Hlen Hnp Hrev Ht. consts.
  destruct (read_nonce_Some (Data packet) (Length packet) (Flags packet)) as [nonce Hn];
    [lia|]. rewrite packet_eta in Hn.
  pose proof (loop_key o nonce 0 0 eq_refl) as Hk.
  change (0 =? 0) with true in Hk. cbv iota in Hk.
  unfold revealed_type in Hrev. rewrite Hn, bind_Some in Hrev.
  change (digest_Write (digest_Write digest_Reset nonce) (userKeyHash o))
    with (digest_at o nonce 1) in Hrev.
  rewrite Hk, bind_Some in Hrev.
  destruct (Go.index (Data packet) 0) as [d|] eqn:E0; [|done]. rewrite bind_Some in Hrev.
  destruct (Go.index (block o nonce 0) 0) as [k|] eqn:Ek; [|done].
  rewrite bind_Some in Hrev. injection Hrev as <-.
  unfold Deobfuscate. rewrite Hen. cbn [negb].
  destruct (Z.ltb_spec (Length packet) device.MinMessageSize) as [Hs|_]; [consts; lia|].
  rewrite Hnp, bind_Some, Hn, bind_Some.
  change (digest_Write (digest_Write digest_Reset nonce) (userKeyHash o))
    with (digest_at o nonce 1).
  rewrite Hk, bind_Some, first_block_spec by lia. rewrite bind_Some.
  unfold MessageType. cbn [Data]. rewrite index_pointwise, E0.
  cbn [fmap option_fmap option_map]. rewrite bind_Some.
  assert (masked o nonce 8 0 d = Z.lxor d k) as ->.
  { unfold masked, within, keystream. change (Z.to_nat (0 / 8)) with 0%nat.
    change (0 mod 8) with 0. rewrite Ek. reflexivity. }
  rewrite Deobfuscate_switch_other by done. rewrite bind_Some.
  eexists. split; [done|]. cbn [Data Length Flags]. split_and!; try done.
  - apply list_eq. intros n. rewrite !lookup_drop, <- !index_nat, index_pointwise.
    unfold masked, within. compare.
    by destruct (Go.index (Data packet) (Z.of_nat (8 + n))).
  - by rewrite length_pointwise.
Qed.

End Claims.

(** ** The client mangler *)
Section ClientFacts.
Implicit Types (c : Client) (packet key : list Z) (i j : Z).

Lemma manglePacket_loop_spec fuel key i packet :
  key ≠ [] → 0 ≤ i → Z.of_nat (length packet) - i ≤ Z.of_nat fuel →
  manglePacket_loop fuel key i packet
  = Some (pointwise
            (λ j d, if i <=? j
                    then Z.lxor d (default 0 (Go.index key (Z.rem j (Z.of_nat (length key)))))
                    else d) packet).
Proof.
  intros Hkey. assert (0 < Z.of_nat (length key)) as Hk by (destruct key; [done|simpl; lia]).
  revert i packet. induction fuel as [|fuel IH]; intros i packet Hi Hfuel;
    cbn [manglePacket_loop];
    destruct (Z.ltb_spec i (Z.of_nat (length packet))) as [Hlt|Hge]; try lia.
  - f_equal. symmetry. apply pointwise_id. intros j d Ej%index_Some_lt.
    destruct (Z.leb_spec i j); [lia|done].
  - destruct (Z.eqb_spec (Z.of_nat (length key)) 0); [lia|]. rewrite bind_Some.
    pose proof (Z.rem_bound_pos i (Z.of_nat (length key)) Hi Hk) as Hrem.
    destruct (index_is_Some key (Z.rem i (Z.of_nat (length key)))) as [k Ek]; [lia|].
    destruct (index_is_Some packet i) as [d Ed]; [lia|].
    rewrite Ek, bind_Some, Ed, bind_Some, store_Some by lia. rewrite bind_Some.
    rewrite IH by (rewrite ?length_pointwise; lia).
    f_equal. rewrite pointwise_compose. apply pointwise_ext. intros j d0 Ej.
    destruct (Z.eqb_spec j i) as [->|Hne].
    + assert (d0 = d) as -> by congruence. rewrite Ek. cbn [default from_option id].
      destruct (Z.leb_spec (i + 1) i); [lia|]. destruct (Z.leb_spec i i); [|lia]. done.
    + destruct (Z.leb_spec (i + 1) j); destruct (Z.leb_spec i j); lia || done.
  - f_equal. symmetry. apply pointwise_id. intros j d Ej%index_Some_lt.
    destruct (Z.leb_spec i j); [lia|done].
Qed.

(** What manglePacket does to a datagram of two bytes or more: byte 1 is the
    peer id, every byte is XORed with the repeating key when one is
    configured, and the error is set exactly for the lengths below 4. *)
Lemma manglePacket_spec c packet :
  (2 ≤ length packet)%nat → xorKey c ≠ Some [] →
  manglePacket c packet
  = Some (pointwise
            (λ j d,
               let stamped := if j =? 1 then Go.byte (id c) else d in
               match xorKey c with
               | Some key =>
                   Z.lxor stamped (default 0 (Go.index key (Z.rem j (Z.of_nat (length key)))))
               | None => stamped
               end) packet,
          if Z.of_nat (length packet) <? 4
          then Some (mkErrPacketTooShort (Z.of_nat (length packet)))
          else None).
Proof.
  intros Hlen Hkey. unfold manglePacket. rewrite store_Some by lia. rewrite bind_Some.
  destruct (xorKey c) as [key|]; [|done].
  rewrite manglePacket_loop_spec by (rewrite ?length_pointwise; congruence || lia).
  rewrite bind_Some, pointwise_compose. do 2 f_equal.
  apply pointwise_ext. intros j d Ej%index_Some_lt.
  destruct (Z.leb_spec 0 j); [done|lia].
Qed.

(** Datagrams of four bytes or more are mangled without error and handed on. *)
Lemma manglePacket_forwarded c packet :
  (4 ≤ length packet)%nat → xorKey c ≠ Some [] →
  ∃ mangledPacket,
    manglePacket c packet = Some (mangledPacket, None)
    ∧ Start_turn c packet = Some (Forwarded mangledPacket)
    ∧ Go.index mangledPacket 1
      = Some (match xorKey c with
              | Some key => Z.lxor (Go.byte (id c)) (default 0 (Go.index key (Z.rem 1 (Z.of_nat (length key)))))
              | None => Go.byte (id c)
              end).
Proof.
  intros Hlen Hkey. unfold Start_turn.
  rewrite manglePacket_spec by (done || lia).
  destruct (Z.ltb_spec (Z.of_nat (length packet)) 4); [lia|].
  eexists. split_and!; [done|done|].
  destruct (index_is_Some packet 1) as [d Ed]; [lia|].
  rewrite index_pointwise, Ed. done.
Qed.

(** Datagrams of two or three bytes are dropped with PacketTooShort. *)
Lemma manglePacket_dropped c packet :
  (2 ≤ length packet < 4)%nat → xorKey c ≠ Some [] →
  Start_turn c packet = Some (Dropped (mkErrPacketTooShort (Z.of_nat (length packet)))).
Proof.
  intros Hlen Hkey. unfold Start_turn.
  rewrite manglePacket_spec by (done || lia).
  by destruct (Z.ltb_spec (Z.of_nat (length packet)) 4); [|lia].
Qed.

(** Below two bytes the store to [packet[1]] is out of range. *)
Lemma manglePacket_panics c packet :
  (length packet < 2)%nat → manglePacket c packet = None ∧ Start_turn c packet = None.
Proof.
  intros Hlen. unfold Start_turn, manglePacket. by rewrite store_None by lia.
Qed.

(** C9, where the code departs from it. On a datagram of zero or one byte
    manglePacket sets the error and goes on to [packet[1] = byte(c.id)],
    which panics: no PacketTooShort is returned and the loop of Start does
    not get to drop the datagram. *)
Theorem manglePacket_short_panics c :
  manglePacket c [] = None ∧ Start_turn c [] = None
  ∧ ∀ b, manglePacket c [b] = None ∧ Start_turn c [b] = None.
Proof. done. Qed.

End ClientFacts.

(** ** More of the codec: bounds, frames and the wire format *)
Section CodecMore.
Context `{Hashes, PacketFlags}.
Implicit Types (o : WireGuardObfuscator) (rnd : Rand) (packet : Packet) (b data : list Z)
  (j t m : Z).

Lemma Obfuscate_switch_other rnd packet t :
  ¬ (1 ≤ t ≤ 4) → Obfuscate_switch rnd packet t = Some None.
Proof. intros Ht. unfold Obfuscate_switch. consts. compare; done. Qed.

Lemma plan_obfs_le_length rnd packet t :
  1 ≤ t ≤ 4 → 0 ≤ Length packet → 0 ≤ rand_Int rnd →
  plan_obfs (Obfuscate_plan rnd packet t) ≤ plan_length (Obfuscate_plan rnd packet t).
Proof.
  intros Ht HL Hr.
  pose proof (Z.rem_bound_pos (rand_Int rnd) 384 Hr ltac:(lia)) as Hrem.
  assert (t = 1 ∨ t = 2 ∨ t = 3 ∨ t = 4) as [-> | [-> | [-> | ->]]] by lia;
    unfold Obfuscate_plan; consts; simpl (_ =? _); cbv iota;
    repeat match goal with
           | |- context [if ?a <? ?b then _ else _] => destruct (Z.ltb_spec a b)
           | |- context [if ?c then _ else _] => destruct c
           end;
    cbn [plan_length plan_obfs]; lia.
Qed.

Lemma MessageType_is_Some packet :
  1 ≤ capacity packet → ∃ t, MessageType packet = Some t.
Proof. intros Hc. apply index_is_Some. consts. lia. Qed.

(** X1. Obfuscate stays inside the buffer. On any packet whose length is within
    the capacity, with room for the longest padding, Obfuscate returns, for
    every message type and whether or not it is enabled; it keeps the buffer
    size and the flags, leaves a length within the capacity, and writes no
    byte at or beyond the length it leaves. *)
Theorem Obfuscate_in_bounds o rnd packet :
  0 ≤ Length packet ≤ capacity packet →
  kObfuscatedMaxLength ≤ capacity packet →
  0 ≤ rand_Int rnd →
  ∃ wire,
    Obfuscate o rnd packet = Some wire
    ∧ length (Data wire) = length (Data packet)
    ∧ Flags wire = Flags packet
    ∧ 0 ≤ Length wire ≤ capacity wire
    ∧ drop (Z.to_nat (Length wire)) (Data wire) = drop (Z.to_nat (Length wire)) (Data packet).
Proof.
  intros HL Hcap Hr.
  assert (∀ p : Packet, p = packet →
            Some p = Some p ∧ length (Data p) = length (Data packet)
            ∧ Flags p = Flags packet ∧ 0 ≤ Length p ≤ capacity p
            ∧ drop (Z.to_nat (Length p)) (Data p) = drop (Z.to_nat (Length p)) (Data packet))
    as Hsame by (by intros p ->).
  destruct (enabled o) eqn:Hen.
  2:{ exists packet. rewrite Obfuscate_disabled by done. by apply Hsame. }
  destruct (Z.eq_dec (Z.land (Flags packet) PacketFlagObfuscateBeforeSend) 0) as [Hz|Hnz].
  { exists packet. rewrite Obfuscate_flag_clear by done. by apply Hsame. }
  destruct (MessageType_is_Some packet) as [t Ht]; [consts; lia|].
  destruct (decide (1 ≤ t ≤ 4)) as [Ht4|Ht4].
  2:{ exists packet. split; [|by apply Hsame].
      unfold Obfuscate. rewrite Hen. cbn [negb].
      destruct (Z.eqb_spec (Z.land (Flags packet) PacketFlagObfuscateBeforeSend) 0); [done|].
      by rewrite Ht, bind_Some, Obfuscate_switch_other. }
  destruct (Obfuscate_spec o rnd packet t Hen Hnz Ht Ht4 HL Hcap Hr) as (nonce & _ & HW).
  destruct (plan_bounds rnd packet t Ht4 HL Hcap Hr) as [Hlen Hobfs].
  pose proof (plan_obfs_le_length rnd packet t Ht4 ltac:(lia) Hr) as Hle.
  eexists. split; [exact HW|]. cbn [Data Length Flags]. unfold capacity. cbn [Data].
  rewrite !length_pointwise. split_and!; [done|done|lia|apply Hlen|].
  apply list_eq. intros n. rewrite !lookup_drop, <- !index_nat, !index_pointwise.
  destruct (Go.index (Data packet) _); [|done].
  cbn [fmap option_fmap option_map]. f_equal.
  unfold masked, padded, within. compare; by destruct (plan_marker _).
Qed.

(** X2. Obfuscate leaves alone what is not WireGuard: a packet whose first byte
    is not a message type 1..4 is returned as it is, flag set or not. *)
Theorem Obfuscate_unknown_type o rnd packet t :
  MessageType packet = Some t → ¬ (1 ≤ t ≤ 4) → Obfuscate o rnd packet = Some packet.
Proof.
  intros Ht Ht4. unfold Obfuscate. destruct (enabled o); [|done]. cbn [negb].
  destruct (_ =? 0); [done|]. by rewrite Ht, bind_Some, Obfuscate_switch_other.
Qed.

(** X3. Obfuscate does not touch the payload of a transport frame: the bytes
    from the 16-byte header up to the length come out as they went in; a
    frame shorter than 256 bytes gets the 16 random bytes right behind
    them. *)
Theorem Obfuscate_transport_payload o rnd packet :
  enabled o = true →
  Z.land (Flags packet) PacketFlagObfuscateBeforeSend ≠ 0 →
  MessageType packet = Some device.MessageTransportType →
  device.MessageTransportHeaderSize ≤ Length packet ≤ capacity packet →
  kObfuscatedMaxLength ≤ capacity packet →
  0 ≤ rand_Int rnd →
  ∃ wire,
    Obfuscate o rnd packet = Some wire
    ∧ (∀ j, device.MessageTransportHeaderSize ≤ j < Length packet →
         Go.index (Data wire) j = Go.index (Data packet) j)
    ∧ (Length packet < kObfuscateSuffixAsNonceMinLength →
         ∀ k, 0 ≤ k < kObfuscateNonceLength →
           Go.index (Data wire) (Length packet + k) = Some (rand_byte rnd (Z.to_nat k))).
Proof.
  intros Hen Hflag Ht HL Hcap Hr. consts.
  destruct (Obfuscate_spec o rnd packet 4 Hen Hflag Ht ltac:(lia) ltac:(consts; lia)
              ltac:(consts; lia) Hr) as (nonce & _ & HW).
  eexists. split; [exact HW|]. cbn [Data].
  unfold Obfuscate_plan. consts. simpl (_ =? _). cbv iota.
  destruct (Z.ltb_spec (Length packet) 256) as [Hs|Hl];
    cbn [plan_marker plan_obfs plan_fill plan_length]; split.
  - intros j Hj. rewrite !index_pointwise. destruct (Go.index (Data packet) j); [|done].
    cbn [fmap option_fmap option_map]. f_equal. unfold masked, padded, within. compare. done.
  - intros _ k Hk.
    destruct (index_is_Some (Data packet) (Length packet + k)) as [d Ed]; [lia|].
    rewrite !index_pointwise, Ed. cbn [fmap option_fmap option_map]. f_equal.
    unfold masked, padded, within. compare. f_equal. lia.
  - intros j Hj. rewrite !index_pointwise. destruct (Go.index (Data packet) j); [|done].
    cbn [fmap option_fmap option_map]. f_equal. unfold masked, padded, within. compare. done.
  - lia.
Qed.

(** X4. The wire packet carries what its receiver needs. For a WireGuard frame
    that Obfuscate transforms, the last 16 bytes of the wire packet are the
    nonce of its own keystream, and each of the first 16 bytes other than
    byte 1 is the frame's byte XOR the keystream byte of that nonce. *)
Theorem Obfuscate_keystream_from_wire o rnd packet :
  enabled o = true →
  Z.land (Flags packet) PacketFlagObfuscateBeforeSend ≠ 0 →
  wireguard_frame packet = true →
  kObfuscatedMaxLength ≤ capacity packet →
  0 ≤ rand_Int rnd →
  ∃ wire nonce,
    Obfuscate o rnd packet = Some wire
    ∧ read_nonce wire = Some nonce
    ∧ ∀ j d, 0 ≤ j < 16 → j ≠ 1 → Go.index (Data packet) j = Some d →
        Go.index (Data wire) j = Some (Z.lxor d (keystream o nonce j)).
Proof.
  intros Hen Hflag Hframe Hcap Hr.
  destruct (wireguard_frame_inv packet Hframe) as (t & Ht & Ht4 & Hf & Hlen).
  destruct (Obfuscate_spec o rnd packet t Hen Hflag Ht Ht4 ltac:(lia) Hcap Hr)
    as (nonce & Hn & HW).
  destruct (plan_facts rnd packet t Ht4 Hf Hr) as (_ & Hfill & Hl16 & _).
  destruct (plan_bounds rnd packet t Ht4 ltac:(lia) Hcap Hr) as [_ Hobfs].
  eexists _, nonce. split; [exact HW|]. split.
  - rewrite <- Hn. apply read_nonce_pointwise. intros j d Hj.
    unfold masked, within. compare. done.
  - intros j d Hj Hj1 Ed. cbn [Data]. rewrite !index_pointwise, Ed.
    cbn [fmap option_fmap option_map]. f_equal.
    unfold masked, padded, within. compare; by destruct (plan_marker _).
Qed.

(** X5. A frame that went through Obfuscate comes out of Deobfuscate marked: the
    flags are the sender's with DeobfuscatedAfterReceived set, while a frame
    sent plain keeps its flags. *)
Theorem roundtrip_marks_packet o rnd packet :
  enabled o = true →
  canonical_frame packet = true →
  kObfuscatedMaxLength ≤ capacity packet →
  0 ≤ rand_Int rnd →
  ∃ wire back,
    Obfuscate o rnd packet = Some wire
    ∧ Deobfuscate o wire = Some back
    ∧ Flags back
      = if Z.land (Flags packet) PacketFlagObfuscateBeforeSend =? 0
        then Flags packet
        else Z.lor (Flags packet) PacketFlagDeobfuscatedAfterReceived.
Proof.
  intros Hen [Hframe Hplain%bool_decide_eq_true]%andb_true_iff Hcap Hr.
  destruct (wireguard_frame_inv packet Hframe) as (t & Ht & Ht4 & Hf & Hlen).
  destruct (is_wireguard_header_inv _ Hplain) as (t' & E0 & _ & E1 & _).
  destruct (Z.eqb_spec (Z.land (Flags packet) PacketFlagObfuscateBeforeSend) 0) as [Hz|Hnz].
  - exists packet, packet. by rewrite Obfuscate_flag_clear, Deobfuscate_plain.
  - destruct (roundtrip_spec o rnd packet t Hen Hnz Ht Hf E1 ltac:(lia) Hcap Hr)
      as (nonce & HW & _ & back & HB & _ & HF & _).
    eauto.
Qed.

(** An enabled Deobfuscate on a packet of 32 bytes or more that is not
    plain: the first block reveals a type, and either it is no type 1..4 and
    the run ends there, or the packet is decoded and marked. *)
Lemma Deobfuscate_not_plain o packet :
  enabled o = true → device.MinMessageSize ≤ Length packet ≤ capacity packet →
  device.MessageInitiationSize ≤ capacity packet →
  is_wireguard_header (Data packet) = Some false →
  ∃ nonce d0 d1,
    read_nonce packet = Some nonce
    ∧ Go.index (Data packet) 0 = Some d0 ∧ Go.index (Data packet) 1 = Some d1
    ∧ ((¬ (1 ≤ Z.lxor d0 (keystream o nonce 0) ≤ 4)
        ∧ Deobfuscate o packet
          = Some (mkPacket (pointwise (masked o nonce 8) (Data packet))
                           (Length packet) (Flags packet)))
       ∨ (1 ≤ Z.lxor d0 (keystream o nonce 0) ≤ 4
          ∧ Deobfuscate o packet
            = Some (mkPacket
                      (pointwise (decoded o nonce (Z.lxor d0 (keystream o nonce 0))
                                          (Z.lxor d1 (keystream o nonce 1)))
                                 (Data packet))
                      (revealed_length (Z.lxor d0 (keystream o nonce 0))
                                       (Z.lxor d1 (keystream o nonce 1)) (Length packet))
                      (Z.lor (Flags packet) PacketFlagDeobfuscatedAfterReceived)))).
Proof.
  intros Hen HL Hcap Hh. consts.
  destruct (index_is_Some (Data packet) 0) as [d0 E0]; [lia|].
  destruct (index_is_Some (Data packet) 1) as [d1 E1]; [lia|].
  destruct (read_nonce_Some (Data packet) (Length packet) (Flags packet)) as [nonce Hn];
    [lia|]. rewrite packet_eta in Hn.
  exists nonce, d0, d1. split_and!; try done.
  pose proof (loop_key o nonce 0 0 eq_refl) as Hk.
  change (0 =? 0) with true in Hk. cbv iota in Hk.
  assert (∀ d, masked o nonce 8 0 d = Z.lxor d (keystream o nonce 0)) as M0
    by (intros d; unfold masked, within; by compare).
  assert (∀ d, masked o nonce 8 1 d = Z.lxor d (keystream o nonce 1)) as M1
    by (intros d; unfold masked, within; by compare).
  unfold Deobfuscate. rewrite Hen. cbn [negb].
  destruct (Z.ltb_spec (Length packet) device.MinMessageSize) as [Hs|_]; [consts; lia|].
  rewrite Hh, bind_Some, Hn, bind_Some.
  change (digest_Write (digest_Write digest_Reset nonce) (userKeyHash o))
    with (digest_at o nonce 1).
  rewrite Hk, bind_Some, first_block_spec by lia. rewrite bind_Some.
  unfold MessageType. cbn [Data]. rewrite index_pointwise, E0.
  cbn [fmap option_fmap option_map]. rewrite bind_Some, M0.
  set (t := Z.lxor d0 (keystream o nonce 0)).
  destruct (decide (1 ≤ t ≤ 4)) as [Ht|Ht].
  - right. split; [done|].
    rewrite (Deobfuscate_switch_spec _ _ _ t (Z.lxor d1 (keystream o nonce 1)) Ht); cycle 1.
    { rewrite index_pointwise, E1. cbn [fmap option_fmap option_map]. by rewrite M1. }
    { rewrite length_pointwise. lia. }
    rewrite bind_Some. cbn [Data Length Flags].
    pose proof (revealed_obfs_bounds t (Z.lxor d1 (keystream o nonce 1))) as Hb.
    rewrite Deobfuscate_loop_Obfuscate_loop by (consts; lia).
    rewrite (Obfuscate_loop_spec o nonce _ 1 kObfuscateXORKeyLength);
      [|done|rewrite !length_pointwise; lia|consts; lia].
    rewrite bind_Some. do 2 f_equal. rewrite !pointwise_compose.
    apply pointwise_ext. intros j d _. unfold decoded. consts. done.
  - left. split; [done|]. by rewrite Deobfuscate_switch_other.
Qed.

(** Every run of Deobfuscate on a packet within a buffer of 148 bytes or
    more is one of three: the packet is returned as it is (obfuscator
    disabled, packet too short, or plain header); or the revealed type is
    not 1..4 and only the first block was applied; or the revealed type [t]
    is 1..4 and the packet is decoded and marked. *)
Lemma Deobfuscate_cases o packet :
  Length packet ≤ capacity packet → device.MessageInitiationSize ≤ capacity packet →
  Deobfuscate o packet = Some packet
  ∨ ∃ nonce d0 d1,
      enabled o = true ∧ device.MinMessageSize ≤ Length packet
      ∧ read_nonce packet = Some nonce
      ∧ Go.index (Data packet) 0 = Some d0 ∧ Go.index (Data packet) 1 = Some d1
      ∧ ((¬ (1 ≤ Z.lxor d0 (keystream o nonce 0) ≤ 4)
          ∧ Deobfuscate o packet
            = Some (mkPacket (pointwise (masked o nonce 8) (Data packet))
                             (Length packet) (Flags packet)))
         ∨ (1 ≤ Z.lxor d0 (keystream o nonce 0) ≤ 4
            ∧ Deobfuscate o packet
              = Some (mkPacket
                        (pointwise (decoded o nonce (Z.lxor d0 (keystream o nonce 0))
                                            (Z.lxor d1 (keystream o nonce 1)))
                                   (Data packet))
                        (revealed_length (Z.lxor d0 (keystream o nonce 0))
                                         (Z.lxor d1 (keystream o nonce 1)) (Length packet))
                        (Z.lor (Flags packet) PacketFlagDeobfuscatedAfterReceived)))).
Proof.
  intros HL Hcap.
  destruct (enabled o) eqn:Hen; [|left; by apply Deobfuscate_disabled].
  destruct (Z.ltb_spec (Length packet) device.MinMessageSize) as [Hs|Hlong];
    [left; by apply Deobfuscate_short|].
  assert (∃ plain, is_wireguard_header (Data packet) = Some plain) as [[|] Hh].
  { consts.
    destruct (index_is_Some (Data packet) 0) as [d0 E0]; [lia|].
    destruct (index_is_Some (Data packet) 1) as [d1 E1]; [lia|].
    destruct (index_is_Some (Data packet) 2) as [d2 E2]; [lia|].
    destruct (index_is_Some (Data packet) 3) as [d3 E3]; [lia|].
    rewrite (is_wireguard_header_eval _ _ _ _ _ E0 E1 E2 E3). eauto. }
  { left. by apply Deobfuscate_plain. }
  right.
  destruct (Deobfuscate_not_plain o packet Hen ltac:(lia) Hcap Hh)
    as (nonce & d0 & d1 & Hn & E0 & E1 & Hcases).
  exists nonce, d0, d1. split_and!; done.
Qed.

Lemma revealed_length_cases t m len :
  revealed_length t m len = len ∨ revealed_length t m len = len - 16
  ∨ revealed_length t m len = 148 ∨ revealed_length t m len = 92
  ∨ revealed_length t m len = 64.
Proof. unfold revealed_length. consts. compare; lia. Qed.

Lemma decoded_beyond o nonce t m j d : 148 ≤ j → decoded o nonce t m j d = d.
Proof.
  intros Hj. pose proof (revealed_obfs_bounds t m) as Hb.
  unfold decoded, masked, restored, within. consts. compare; done.
Qed.

(** X6. Deobfuscate stays inside the buffer. On any packet whose length is
    within the capacity of a buffer of 148 bytes or more, whatever its
    bytes, Deobfuscate returns; it keeps the buffer size, leaves a length
    within the capacity (the input length, 16 less, or 148, 92 or 64),
    changes no flag other than DeobfuscatedAfterReceived, and writes no
    byte at index 148 or beyond. *)
Theorem Deobfuscate_in_bounds o packet :
  Length packet ≤ capacity packet →
  device.MessageInitiationSize ≤ capacity packet →
  ∃ back,
    Deobfuscate o packet = Some back
    ∧ length (Data back) = length (Data packet)
    ∧ Length back ≤ capacity back
    ∧ (Length back = Length packet ∨ Length back = Length packet - kObfuscateNonceLength
       ∨ Length back = device.MessageInitiationSize
       ∨ Length back = device.MessageResponseSize
       ∨ Length back = device.MessageCookieReplySize)
    ∧ (Flags back = Flags packet
       ∨ Flags back = Z.lor (Flags packet) PacketFlagDeobfuscatedAfterReceived)
    ∧ drop (Z.to_nat device.MessageInitiationSize) (Data back)
      = drop (Z.to_nat device.MessageInitiationSize) (Data packet).
Proof.
  intros HL Hcap.
  destruct (Deobfuscate_cases o packet HL Hcap)
    as [HD | (nonce & d0 & d1 & _ & Hmin & _ & _ & _ & [[_ HD] | [_ HD]])];
    rewrite HD; eexists; (split; [done|]); consts; cbn [Data Length Flags].
  - split_and!; auto.
  - rewrite length_pointwise. split_and!; auto.
    apply list_eq. intros n. rewrite !lookup_drop, <- !index_nat, index_pointwise.
    destruct (Go.index (Data packet) _); [|done].
    cbn [fmap option_fmap option_map]. f_equal. unfold masked, within. compare. done.
  - rewrite length_pointwise.
    pose proof (revealed_length_cases (Z.lxor d0 (keystream o nonce 0))
                  (Z.lxor d1 (keystream o nonce 1)) (Length packet)) as Hc.
    split_and!; auto; [lia|].
    apply list_eq. intros n. rewrite !lookup_drop, <- !index_nat, index_pointwise.
    destruct (Go.index (Data packet) _); [|done].
    cbn [fmap option_fmap option_map]. f_equal. apply decoded_beyond. lia.
Qed.

Lemma decoded_masked o nonce t m j x :
  1 ≤ t ≤ 4 → m = 0 ∨ m = 1 →
  decoded o nonce t m j (masked o nonce (revealed_obfs t m) j x) = restored t m j x.
Proof.
  intros Ht Hm. unfold decoded, masked, restored, revealed_obfs, within. consts.
  assert (t = 1 ∨ t = 2 ∨ t = 3 ∨ t = 4) as [-> | [-> | [-> | ->]]] by lia;
    destruct Hm as [-> | ->]; compare; rewrite ?lxor_cancel; try done.
Qed.

Lemma is_wireguard_header_ext b b' :
  (∀ j, 0 ≤ j < 4 → Go.index b j = Go.index b' j) →
  is_wireguard_header b = is_wireguard_header b'.
Proof.
  intros E. unfold is_wireguard_header.
  by rewrite (E 0), (E 1), (E 2), (E 3) by lia.
Qed.

Lemma read_nonce_ext packet packet' :
  Length packet' = Length packet →
  16 ≤ Length packet ≤ capacity packet → Length packet ≤ capacity packet' →
  (∀ j, Length packet - 16 ≤ j < Length packet →
     Go.index (Data packet') j = Go.index (Data packet) j) →
  read_nonce packet' = read_nonce packet.
Proof.
  intros HL Hc Hc' E. unfold read_nonce. consts. rewrite HL.
  rewrite !slice_Some by lia. rewrite !bind_Some. f_equal. unfold Go.copy.
  rewrite !length_replicate, !length_take, !length_drop.
  rewrite !(drop_ge (replicate _ _)) by (rewrite length_replicate; lia).
  f_equal. apply list_eq. intros n.
  destruct (decide (n < 16)%nat) as [Hn|Hn].
  - rewrite !lookup_take_lt by lia.
    rewrite !lookup_drop, <- !index_nat. apply E. lia.
  - rewrite !lookup_take_ge by lia. done.
Qed.

Lemma plan_length_ge rnd packet t :
  1 ≤ t ≤ 4 → frame_length_ok t (Length packet) = true → 0 ≤ rand_Int rnd →
  Length packet ≤ plan_length (Obfuscate_plan rnd packet t).
Proof.
  intros Ht Hf Hr.
  pose proof (Z.rem_bound_pos (rand_Int rnd) 384 Hr ltac:(lia)) as Hrem.
  unfold frame_length_ok in Hf.
  assert (t = 1 ∨ t = 2 ∨ t = 3 ∨ t = 4) as [-> | [-> | [-> | ->]]] by lia;
    unfold Obfuscate_plan; consts; simpl (_ =? _) in *; cbv iota in *;
    repeat match goal with
           | |- context [if ?a <? ?b then _ else _] => destruct (Z.ltb_spec a b)
           | |- context [if ?c then _ else _] => destruct c
           end;
    cbn [plan_length]; lia.
Qed.

Lemma decoded_first_block o nonce t m j d :
  0 ≤ j < 8 → decoded o nonce t m j d = restored t m j (masked o nonce 8 j d).
Proof. intros Hj. unfold decoded, within. by compare. Qed.

Lemma restored_byte_0 t m d : restored t m 0 d = d.
Proof.
  unfold restored, within. consts.
  destruct ((m =? 1) && negb (t =? 3)); [|done]. compare; done.
Qed.

Lemma restored_byte_1 t m d :
  t ≠ 3 → restored t m 1 d = if m =? 1 then 0 else d.
Proof.
  intros Ht. unfold restored. consts.
  destruct (Z.eqb_spec t 3); [done|]. by destruct (m =? 1).
Qed.

(** X7. What the mark means. If Deobfuscate changed the flags of a packet, then
    the packet it returns starts with a message type 1..4, a handshake type
    has the fixed length of that type (whatever the received length was),
    and byte 1 holds no marker unless the type is CookieReply. *)
Theorem Deobfuscate_marked o packet back :
  Length packet ≤ capacity packet →
  device.MessageInitiationSize ≤ capacity packet →
  Deobfuscate o packet = Some back →
  Flags back ≠ Flags packet →
  ∃ t, MessageType back = Some t ∧ 1 ≤ t ≤ 4
       ∧ Flags back = Z.lor (Flags packet) PacketFlagDeobfuscatedAfterReceived
       ∧ (t ≠ device.MessageTransportType → Length back = fixed_size t)
       ∧ (t ≠ device.MessageCookieReplyType → Go.index (Data back) 1 ≠ Some 0x01).
Proof.
  intros HL Hcap HB HF.
  destruct (Deobfuscate_cases o packet HL Hcap)
    as [HD | (nonce & d0 & d1 & _ & Hmin & _ & E0 & E1 & [[_ HD] | [Ht HD]])];
    rewrite HD in HB; injection HB as <-; cbn [Flags] in HF; try done.
  set (t := Z.lxor d0 (keystream o nonce 0)) in *.
  set (m := Z.lxor d1 (keystream o nonce 1)) in *.
  exists t. unfold MessageType. cbn [Data Length Flags].
  rewrite !index_pointwise, E0, E1. cbn [fmap option_fmap option_map].
  assert (masked o nonce 8 0 d0 = t) as M0 by (unfold masked, within; by compare).
  assert (masked o nonce 8 1 d1 = m) as M1 by (unfold masked, within; by compare).
  rewrite !decoded_first_block, M0, M1, restored_byte_0 by lia.
  split_and!; [done|lia|lia|done| |].
  - intros Ht4. unfold revealed_length, fixed_size. consts.
    assert (t = 1 ∨ t = 2 ∨ t = 3) as [-> | [-> | ->]] by lia; done.
  - intros Ht3. consts. rewrite restored_byte_1 by done.
    destruct (Z.eqb_spec m 1); congruence.
Qed.

Lemma index_take_app b rest (n : nat) j :
  (n ≤ length b)%nat → 0 ≤ j < Z.of_nat n → Go.index (take n b ++ rest) j = Go.index b j.
Proof.
  intros Hn Hj. unfold Go.index. destruct (Z.leb_spec 0 j); [|lia].
  rewrite lookup_app_l by (rewrite length_take; lia). apply lookup_take_lt. lia.
Qed.

(** X8. The round trip across buffers. The receiver does not share the sender's
    buffer: it holds the datagram, the first [Length] bytes of the wire
    packet, in a buffer of its own whose other bytes and flags are
    arbitrary. For every canonical frame, Deobfuscate on such a buffer
    returns the frame: the original length and, below it, the original
    bytes. *)
Theorem roundtrip_across_buffers o rnd packet wire arrived :
  enabled o = true →
  canonical_frame packet = true →
  kObfuscatedMaxLength ≤ capacity packet →
  0 ≤ rand_Int rnd →
  Obfuscate o rnd packet = Some wire →
  Length arrived = Length wire →
  Length arrived ≤ capacity arrived →
  device.MessageInitiationSize ≤ capacity arrived →
  (∀ j, 0 ≤ j < Length wire → Go.index (Data arrived) j = Go.index (Data wire) j) →
  ∃ back,
    Deobfuscate o arrived = Some back
    ∧ Length back = Length packet
    ∧ ∀ j, 0 ≤ j < Length packet → Go.index (Data back) j = Go.index (Data packet) j.
Proof.
  intros Hen [Hframe Hplain%bool_decide_eq_true]%andb_true_iff Hcap Hr HW HLa Hca Hca' Hsame.
  destruct (wireguard_frame_inv packet Hframe) as (t & Ht & Ht4 & Hf & Hlen).
  destruct (is_wireguard_header_inv _ Hplain) as (t' & E0 & _ & E1 & _).
  destruct (Z.eq_dec (Z.land (Flags packet) PacketFlagObfuscateBeforeSend) 0) as [Hz|Hnz].
  { rewrite Obfuscate_flag_clear in HW by done. injection HW as <-.
    exists arrived. rewrite Deobfuscate_plain; [by auto|].
    rewrite <- Hplain. apply is_wireguard_header_ext. intros j Hj. apply Hsame. lia. }
  destruct (Obfuscate_spec o rnd packet t Hen Hnz Ht Ht4 ltac:(lia) Hcap Hr)
    as (nonce & Hn & HW').
  rewrite HW' in HW. injection HW as <-. cbn [Data Length] in *.
  destruct (plan_facts rnd packet t Ht4 Hf Hr) as (Hobfs & Hfill & Hl16 & Hrl & Hrest).
  destruct (plan_bounds rnd packet t Ht4 ltac:(lia) Hcap Hr) as [Hpl Hob].
  pose proof (plan_length_ge rnd packet t Ht4 Hf Hr) as Hge.
  set (pl := Obfuscate_plan rnd packet t) in *.
  set (m := if plan_marker pl then 1 else 0) in *.
  assert (m = 0 ∨ m = 1) as Hm by (subst m; destruct (plan_marker pl); lia).
  set (D := pointwise _ (Data packet)) in *.
  destruct (padded_header rnd (plan_marker pl) (plan_fill pl) (plan_length pl)
              (Data packet) t 0 Hfill Ht E1) as [D0 D1].
  fold D in D0, D1. fold m in D1.
  assert (Z.of_nat (length D) = capacity packet) as HlD
    by (subst D; by rewrite length_pointwise).
  assert (is_wireguard_header (Data arrived) = Some false) as Hh.
  { rewrite <- (masked_header o nonce (plan_obfs pl) D t m D0 D1) by (done || consts; lia).
    apply is_wireguard_header_ext. intros j Hj. apply Hsame. lia. }
  assert (read_nonce arrived = Some nonce) as Hna.
  { rewrite <- Hn.
    rewrite <- (read_nonce_pointwise (masked o nonce (plan_obfs pl)) D (plan_length pl)
                  (Flags packet) (Flags packet)).
    2:{ intros j d Hj. unfold masked, within. compare. done. }
    apply read_nonce_ext; cbn [Data Length]; unfold capacity; cbn [Data];
      rewrite ?length_pointwise; consts; try lia.
    intros j Hj. apply Hsame. lia. }
  destruct (Deobfuscate_not_plain o arrived Hen ltac:(consts; lia) Hca' Hh)
    as (nonce' & d0 & d1 & Hn' & A0 & A1 & Hcases).
  assert (nonce' = nonce) as -> by congruence.
  assert (Z.lxor d0 (keystream o nonce 0) = t) as Ed0.
  { rewrite Hsame, index_pointwise, D0 in A0 by lia. injection A0 as <-.
    unfold masked, within. compare. apply lxor_cancel. }
  assert (Z.lxor d1 (keystream o nonce 1) = m) as Ed1.
  { rewrite Hsame, index_pointwise, D1 in A1 by lia. injection A1 as <-.
    unfold masked, within. compare. apply lxor_cancel. }
  rewrite Ed0, Ed1 in Hcases. destruct Hcases as [[Hno _] | [_ HD]]; [done|].
  eexists. split; [exact HD|]. cbn [Data Length]. split; [by rewrite HLa|].
  intros j Hj. rewrite index_pointwise, Hsame by lia. subst D.
  rewrite !index_pointwise.
  destruct (Go.index (Data packet) j) as [d|] eqn:Ej; [|done].
  cbn [fmap option_fmap option_map]. f_equal.
  rewrite <- Hobfs, decoded_masked by done. by apply Hrest.
Qed.

End CodecMore.

(** ** More of the client: what the server can read back, the constructor,
    the loop *)
Section ClientMore.
Implicit Types (c : Client) (packet key : list Z) (j : Z).

Lemma manglePacket_mangled c packet :
  (2 ≤ length packet)%nat → xorKey c ≠ Some [] →
  manglePacket c packet
  = Some (mangled c packet,
          if Z.of_nat (length packet) <? 4
          then Some (mkErrPacketTooShort (Z.of_nat (length packet)))
          else None).
Proof.
  intros Hlen Hkey. rewrite manglePacket_spec by done. do 2 f_equal.
  change (mangled c packet) with
    (pointwise (λ j d, Z.lxor (if j =? 1 then Go.byte (id c) else d) (key_byte c j)) packet).
  apply pointwise_ext. intros j d _. unfold key_byte.
  destruct (xorKey c); [done|]. by rewrite Z.lxor_0_r.
Qed.

Lemma mangled_read_back c packet j d :
  Go.index packet j = Some d →
  ∃ w, Go.index (mangled c packet) j = Some w
       ∧ Z.lxor w (key_byte c j) = if j =? 1 then Go.byte (id c) else d.
Proof.
  intros Ed. change (mangled c packet) with
    (pointwise (λ j d, Z.lxor (if j =? 1 then Go.byte (id c) else d) (key_byte c j)) packet).
  rewrite index_pointwise, Ed. eexists. split; [done|]. apply lxor_cancel.
Qed.

(** X10. The mangled datagram can be read back. For a datagram of two bytes or
    more manglePacket returns a datagram of the same length, and XORing its
    byte [j] with the key byte of [j] again gives the original byte, except
    at index 1, where it gives the peer id as a byte. *)
Theorem manglePacket_decodes c packet :
  (2 ≤ length packet)%nat → xorKey c ≠ Some [] →
  ∃ out err,
    manglePacket c packet = Some (out, err)
    ∧ length out = length packet
    ∧ ∀ j d, Go.index packet j = Some d →
        ∃ w, Go.index out j = Some w
             ∧ Z.lxor w (key_byte c j) = if j =? 1 then Go.byte (id c) else d.
Proof.
  intros Hlen Hkey. rewrite manglePacket_mangled by done.
  eexists _, _. split; [done|]. split; [apply length_imap|].
  intros j d Ed. by apply mangled_read_back.
Qed.

Section Setup.
Variable UDPAddr : Type.
Variable ResolveUDPAddr : string → UDPAddr + string.
Variable kMaxPeersCount : Z.

Lemma bytes_of_string_nonempty (s : string) :
  (0 < String.length s)%nat → bytes_of_string s ≠ [].
Proof. destruct s; [simpl; lia|done]. Qed.

(** X11. A client that NewClientWithConfig returns has its id in
    [[0, kMaxPeersCount)] and either no key or a non-empty one, so on it
    manglePacket returns for every datagram of two bytes or more; when peer
    ids fit a byte, what the server reads back at index 1 is the configured
    id itself. *)
Theorem NewClientWithConfig_mangles config n packet :
  NewClientWithConfig UDPAddr ResolveUDPAddr kMaxPeersCount config = inr n →
  kMaxPeersCount ≤ 256 →
  (2 ≤ length packet)%nat →
  0 ≤ ID config < kMaxPeersCount
  ∧ id (client UDPAddr n) = ID config
  ∧ xorKey (client UDPAddr n) ≠ Some []
  ∧ ∃ out err w,
      manglePacket (client UDPAddr n) packet = Some (out, err)
      ∧ Go.index out 1 = Some w
      ∧ Z.lxor w (key_byte (client UDPAddr n) 1) = ID config.
Proof.
  unfold NewClientWithConfig. intros Hn Hmax Hlen.
  destruct (ResolveUDPAddr (Server config)); [|done].
  destruct (ResolveUDPAddr (Listen config)); [|done].
  destruct (Z.ltb_spec (ID config) 0); [done|].
  destruct (Z.geb_spec (ID config) kMaxPeersCount); [done|].
  cbn [orb] in Hn. injection Hn as <-. cbn [client id xorKey].
  assert ((if (0 <? String.length (XORKey config))%nat
           then Some (bytes_of_string (XORKey config)) else None) ≠ Some []) as Hkey.
  { destruct (Nat.ltb_spec 0 (String.length (XORKey config))); [|done].
    intros [= E]. by apply (bytes_of_string_nonempty (XORKey config)). }
  split_and!; [lia|lia|done|exact Hkey|].
  destruct (index_is_Some packet 1) as [d Ed]; [lia|].
  set (c := mkClient (ID config) _) in *.
  destruct (mangled_read_back c packet 1 d Ed) as (w & Hw & Hx).
  rewrite manglePacket_mangled by done.
  eexists _, _, w. split_and!; [done|exact Hw|].
  rewrite Hx. cbn [id]. unfold Go.byte. change (1 =? 1) with true. cbv iota.
  apply Z.mod_small. lia.
Qed.

(** X12. The loop forwards what it should, in order. On a client with no key or
    a non-empty one, as long as no datagram is shorter than two bytes the
    loop never panics; the calls of forwardPacket are, in order of arrival,
    the mangled datagrams of four bytes or more read before the first read
    error, each from its source to the server, whether or not earlier calls
    failed; and the loop ends on the first read error, where Start returns a
    nil error. *)
Theorem Start_loop_forwards c (server : UDPAddr) (reads : list (Read UDPAddr)) :
  xorKey c ≠ Some [] →
  Forall (λ d, 2 ≤ length d.1)%nat (datagrams UDPAddr reads) →
  forward_calls UDPAddr (Start_loop UDPAddr c server reads).1
  = (λ d, (d.2, server, mangled c d.1))
      <$> filter (λ d, 4 ≤ length d.1)%nat (datagrams UDPAddr reads)
  ∧ (Start_loop UDPAddr c server reads).2
    = if decide (length (datagrams UDPAddr reads) = length reads)
      then Reading else Returned None.
Proof.
  intros Hkey. induction reads as [|[err|packet src ferr] reads IH]; intros Hall.
  - done.
  - done.
  - cbn [datagrams] in Hall. apply Forall_cons in Hall as [Hp Hall].
    destruct (IH Hall) as [IHf IHo]. clear IH.
    cbn [Start_loop datagrams]. cbn [fst] in Hp.
    rewrite manglePacket_mangled by done.
    destruct (Start_loop UDPAddr c server reads) as [effects outcome].
    cbn [fst snd] in *. rewrite filter_cons. cbn [fst snd length].
    destruct (Z.ltb_spec (Z.of_nat (length packet)) 4);
      destruct (decide (4 ≤ length packet)%nat); try lia; cbn [fst snd]; split.
    + done.
    + rewrite IHo. by repeat case_decide; try lia.
    + rewrite fmap_cons. cbn [fst snd]. rewrite <- IHf. by destruct ferr.
    + rewrite IHo. by repeat case_decide; try lia.
Qed.

(** X13. One runt stops the client. If a datagram of zero or one byte arrives
    before any read error, the loop panics there: its effects are those of
    the datagrams before it, and nothing that arrives after it is forwarded
    or logged. *)
Theorem Start_loop_runt c (server : UDPAddr) (before after : list (Read UDPAddr))
    packet src ferr :
  (length packet < 2)%nat →
  length (datagrams UDPAddr before) = length before →
  Start_loop UDPAddr c server (before ++ Datagram UDPAddr packet src ferr :: after)
  = ((Start_loop UDPAddr c server before).1, Panicked).
Proof.
  intros Hrunt. induction before as [|[err|p s f] before IH]; intros Hno.
  - cbn [app Start_loop]. destruct (manglePacket_panics c packet Hrunt) as [-> _]. done.
  - cbn [datagrams length] in Hno. lia.
  - cbn [datagrams length] in Hno. injection Hno as Hno.
    cbn [app Start_loop]. rewrite (IH Hno).
    destruct (manglePacket c p) as [[m [e|]]|]; [| |done];
      by destruct (Start_loop UDPAddr c server before).
Qed.

End Setup.

(** X9. The header-conflict mask changes at most bytes 0 and 1 of a block, only
    by setting bits, leaves a block alone when one of the tested bits is
    there already, and returns a block that it would leave alone. *)
Theorem modifyHashMask_stable (b : list Z) :
  (2 ≤ length b)%nat →
  ∃ b' b0 b1 k0 k1,
    modifyHashMaskForWireGuardHeaderConflict b = Some b'
    ∧ modifyHashMaskForWireGuardHeaderConflict b' = Some b'
    ∧ length b' = length b
    ∧ (∀ j, 2 ≤ j → Go.index b' j = Go.index b j)
    ∧ Go.index b 0 = Some b0 ∧ Go.index b 1 = Some b1
    ∧ Go.index b' 0 = Some k0 ∧ Go.index b' 1 = Some k1
    ∧ Z.land k0 b0 = b0 ∧ Z.land k1 b1 = b1
    ∧ (¬ (Z.land b0 0xf8 = 0 ∧ Z.land b1 0xfe = 0) → b' = b).
Proof.
  intros Hlen.
  destruct (index_is_Some b 0) as [b0 E0]; [lia|].
  destruct (index_is_Some b 1) as [b1 E1]; [lia|].
  assert (∀ x y, Z.land (Z.lor x y) x = x) as Habs.
  { intros x y. apply Z.bits_inj'. intros n _. rewrite Z.land_spec, Z.lor_spec.
    by destruct (Z.testbit x n), (Z.testbit y n). }
  assert (∀ x : list Z, ∀ x0 x1, Go.index x 0 = Some x0 → Go.index x 1 = Some x1 →
            ¬ (Z.land x0 0xf8 = 0 ∧ Z.land x1 0xfe = 0) →
            modifyHashMaskForWireGuardHeaderConflict x = Some x) as Hkeep.
  { intros x x0 x1 Ex0 Ex1 Hx. unfold modifyHashMaskForWireGuardHeaderConflict.
    rewrite Ex0, Ex1. cbn [fmap option_fmap option_map and_then mbind option_bind].
    destruct (Z.eqb_spec (Z.land x0 248) 0); [|done].
    destruct (Z.eqb_spec (Z.land x1 254) 0); [|done]. tauto. }
  destruct (decide (Z.land b0 0xf8 = 0 ∧ Z.land b1 0xfe = 0)) as [[Z0 Z1]|Hno].
  - unfold modifyHashMaskForWireGuardHeaderConflict at 1.
    rewrite E0, E1. cbn [fmap option_fmap option_map and_then mbind option_bind].
    destruct (Z.eqb_spec (Z.land b0 248) 0); [|done].
    destruct (Z.eqb_spec (Z.land b1 254) 0); [|done].
    rewrite store_Some by lia. cbn [mbind option_bind].
    rewrite index_pointwise, E1. cbn [fmap option_fmap option_map mbind option_bind].
    rewrite store_Some by (rewrite length_pointwise; lia).
    rewrite pointwise_compose.
    set (b' := pointwise _ b).
    assert (Go.index b' 0 = Some (Z.lor b0 215)) as K0
      by (subst b'; by rewrite index_pointwise, E0).
    assert (Go.index b' 1 = Some (Z.lor b1 105)) as K1
      by (subst b'; by rewrite index_pointwise, E1).
    exists b', b0, b1, (Z.lor b0 215), (Z.lor b1 105).
    split_and!; try done.
    + apply (Hkeep b' _ _ K0 K1). intros [Hk _].
      rewrite Z.land_lor_distr_l in Hk. apply Z.lor_eq_0_iff in Hk as [_ Hk]. done.
    + subst b'. by rewrite length_pointwise.
    + intros j Hj. subst b'. rewrite index_pointwise.
      destruct (Go.index b j); [|done]. cbn [fmap option_fmap option_map]. f_equal.
      by compare.
    + tauto.
  - exists b, b0, b1, b0, b1. rewrite (Hkeep b b0 b1) by done.
    split_and!; try done; apply Z.land_diag.
Qed.

End ClientMore.

(** ** The theorems on the test configuration

    The obfuscator of the test configuration ([Real.obfs]: XXH64, SHA-256 of
    the configured key), one draw of the generator ([Real.rnd]) and the
    packets of [Module Real]. *)
Import Real.

Lemma roundtrip_canonical_response :
  ∃ wire back,
    Obfuscate obfs rnd response = Some wire
    ∧ Deobfuscate obfs wire = Some back
    ∧ Length back = Length response
    ∧ Go.index (Data back) 1 = Some 0
    ∧ (∀ lo hi, 0 ≤ lo ≤ hi → hi ≤ Length response →
         Go.slice (Data back) lo hi = Go.slice (Data response) lo hi)
    ∧ (∀ t, MessageType response = Some t →
         zero_mac2 (Data back) t = zero_mac2 (Data response) t).
Proof.
  apply (roundtrip_canonical (mkObfuscator false (replicate 32 0))
           "kisekimo, mahoumo, muryoudewaarimasen" rnd response).
  - discriminate.
  - vm_compute. reflexivity.
  - vm_compute. discriminate.
  - vm_compute. discriminate.
Defined.

Lemma header_disambiguation_response :
  ∃ wire, Obfuscate obfs rnd response = Some wire
          ∧ is_wireguard_header (Data wire) = Some false.
Proof.
  apply (header_disambiguation obfs rnd response 0).
  - vm_compute. reflexivity.
  - vm_compute. discriminate.
  - vm_compute. reflexivity.
  - vm_compute. reflexivity.
  - left. reflexivity.
  - vm_compute. discriminate.
  - vm_compute. discriminate.
Defined.

Lemma Deobfuscate_pass_through_response : Deobfuscate obfs response = Some response.
Proof.
  apply (Deobfuscate_pass_through (mkObfuscator false (replicate 32 0))
           "kisekimo, mahoumo, muryoudewaarimasen" response).
  - vm_compute. discriminate.
  - vm_compute. reflexivity.
Defined.

(** C4, as stated, fails on the Response frame of the test configuration:
    byte 1 of the wire packet is [0x01 xor keystream[1] = 142], not [0x01]. *)
Lemma response_marker_is_masked :
  canonical_frame response = true
  ∧ MessageType response = Some device.MessageResponseType
  ∧ zero_mac2 (Data response) device.MessageResponseType = true
  ∧ ∃ wire, Obfuscate obfs rnd response = Some wire
            ∧ Go.index (Data wire) 1 = Some 142
            ∧ Go.index (Data wire) 1 ≠ Some 0x01.
Proof.
  split_and!; [vm_compute; reflexivity..|].
  eexists. split_and!; [vm_compute; reflexivity|vm_compute; reflexivity|].
  vm_compute. discriminate.
Qed.

Lemma zero_mac2_response_witness :
  ∃ wire nonce back,
    Obfuscate obfs rnd response = Some wire
    ∧ read_nonce wire = Some nonce
    ∧ Go.index (Data wire) 1 = Some (Z.lxor 0x01 (keystream obfs nonce 1))
    ∧ (∀ j, kMessageResponseTypeMAC2Offset ≤ j < device.MessageResponseSize →
         Go.index (Data wire) j
         = Some (rand_byte rnd (Z.to_nat (j - kMessageResponseTypeMAC2Offset))))
    ∧ Deobfuscate obfs wire = Some back
    ∧ zero_mac2 (Data back) device.MessageResponseType = true
    ∧ Go.index (Data back) 1 = Some 0.
Proof.
  apply (zero_mac2_response obfs rnd response).
  - vm_compute. reflexivity.
  - vm_compute. discriminate.
  - vm_compute. reflexivity.
  - vm_compute. reflexivity.
  - vm_compute. reflexivity.
  - vm_compute. discriminate.
  - vm_compute. discriminate.
Defined.

Lemma Obfuscate_length_bounds_transport :
  ∃ wire,
    Obfuscate obfs rnd transport = Some wire
    ∧ (4 ≠ device.MessageTransportType →
         fixed_size 4 + kObfuscateNonceLength ≤ Length wire
         < fixed_size 4 + kObfuscateNonceLength + kObfuscateRandomSuffixMaxLength)
    ∧ (4 = device.MessageTransportType →
         Length transport < kObfuscateSuffixAsNonceMinLength →
         Length wire = Length transport + kObfuscateNonceLength)
    ∧ (4 = device.MessageTransportType →
         kObfuscateSuffixAsNonceMinLength ≤ Length transport →
         Length wire = Length transport).
Proof.
  apply (Obfuscate_length_bounds obfs rnd transport 4).
  - vm_compute. reflexivity.
  - vm_compute. discriminate.
  - vm_compute. reflexivity.
  - lia.
  - vm_compute. split; discriminate.
  - vm_compute. discriminate.
  - vm_compute. discriminate.
Defined.

Lemma Deobfuscate_idempotent_response :
  ∃ once, Deobfuscate obfs response = Some once ∧ Deobfuscate obfs once = Some once.
Proof.
  apply (Deobfuscate_idempotent_canonical (mkObfuscator false (replicate 32 0))
           "kisekimo, mahoumo, muryoudewaarimasen" response).
  vm_compute. reflexivity.
Defined.

Lemma flag_clear_identity_runt : Obfuscate obfs rnd runt = Some runt.
Proof.
  apply (disabled_identity obfs rnd runt). vm_compute. reflexivity.
Defined.

Lemma Deobfuscate_short_untouched_runt : Deobfuscate obfs runt = Some runt.
Proof.
  apply (Deobfuscate_short_untouched (mkObfuscator false (replicate 32 0))
           "kisekimo, mahoumo, muryoudewaarimasen" runt).
  vm_compute. reflexivity.
Defined.

Lemma Deobfuscate_unknown_type_junk :
  ∃ back,
    Deobfuscate obfs junk = Some back
    ∧ drop 8 (Data back) = drop 8 (Data junk)
    ∧ length (Data back) = length (Data junk)
    ∧ Length back = Length junk
    ∧ Flags back = Flags junk.
Proof.
  apply (Deobfuscate_unknown_type obfs junk 233).
  - vm_compute. reflexivity.
  - vm_compute. split; discriminate.
  - vm_compute. reflexivity.
  - vm_compute. reflexivity.
  - lia.
Defined.

Lemma Obfuscate_in_bounds_response :
  ∃ wire,
    Obfuscate obfs rnd response = Some wire
    ∧ length (Data wire) = length (Data response)
    ∧ Flags wire = Flags response
    ∧ 0 ≤ Length wire ≤ capacity wire
    ∧ drop (Z.to_nat (Length wire)) (Data wire)
      = drop (Z.to_nat (Length wire)) (Data response).
Proof.
  apply (Obfuscate_in_bounds obfs rnd response).
  - vm_compute. split; discriminate.
  - vm_compute. discriminate.
  - vm_compute. discriminate.
Defined.

Lemma Obfuscate_unknown_type_foreign : Obfuscate obfs rnd foreign = Some foreign.
Proof.
  apply (Obfuscate_unknown_type obfs rnd foreign 200).
  - vm_compute. reflexivity.
  - lia.
Defined.

Lemma Obfuscate_transport_payload_witness :
  ∃ wire,
    Obfuscate obfs rnd transport = Some wire
    ∧ (∀ j, device.MessageTransportHeaderSize ≤ j < Length transport →
         Go.index (Data wire) j = Go.index (Data transport) j)
    ∧ (Length transport < kObfuscateSuffixAsNonceMinLength →
         ∀ k, 0 ≤ k < kObfuscateNonceLength →
           Go.index (Data wire) (Length transport + k) = Some (rand_byte rnd (Z.to_nat k))).
Proof.
  apply (Obfuscate_transport_payload obfs rnd transport).
  - vm_compute. reflexivity.
  - vm_compute. discriminate.
  - vm_compute. reflexivity.
  - vm_compute. split; discriminate.
  - vm_compute. discriminate.
  - vm_compute. discriminate.
Defined.

Lemma Obfuscate_keystream_from_wire_response :
  ∃ wire nonce,
    Obfuscate obfs rnd response = Some wire
    ∧ read_nonce wire = Some nonce
    ∧ ∀ j d, 0 ≤ j < 16 → j ≠ 1 → Go.index (Data response) j = Some d →
        Go.index (Data wire) j = Some (Z.lxor d (keystream obfs nonce j)).
Proof.
  apply (Obfuscate_keystream_from_wire obfs rnd response).
  - vm_compute. reflexivity.
  - vm_compute. discriminate.
  - vm_compute. reflexivity.
  - vm_compute. discriminate.
  - vm_compute. discriminate.
Defined.

Lemma roundtrip_marks_response :
  ∃ wire back,
    Obfuscate obfs rnd response = Some wire
    ∧ Deobfuscate obfs wire = Some back
    ∧ Flags back
      = if Z.land (Flags response) PacketFlagObfuscateBeforeSend =? 0
        then Flags response
        else Z.lor (Flags response) PacketFlagDeobfuscatedAfterReceived.
Proof.
  apply (roundtrip_marks_packet obfs rnd response).
  - vm_compute. reflexivity.
  - vm_compute. reflexivity.
  - vm_compute. discriminate.
  - vm_compute. discriminate.
Defined.

Lemma Deobfuscate_in_bounds_junk :
  ∃ back,
    Deobfuscate obfs junk = Some back
    ∧ length (Data back) = length (Data junk)
    ∧ Length back ≤ capacity back
    ∧ (Length back = Length junk ∨ Length back = Length junk - kObfuscateNonceLength
       ∨ Length back = device.MessageInitiationSize
       ∨ Length back = device.MessageResponseSize
       ∨ Length back = device.MessageCookieReplySize)
    ∧ (Flags back = Flags junk
       ∨ Flags back = Z.lor (Flags junk) PacketFlagDeobfuscatedAfterReceived)
    ∧ drop (Z.to_nat device.MessageInitiationSize) (Data back)
      = drop (Z.to_nat device.MessageInitiationSize) (Data junk).
Proof.
  apply (Deobfuscate_in_bounds obfs junk).
  - vm_compute. discriminate.
  - vm_compute. discriminate.
Defined.

Lemma Deobfuscate_marked_received :
  ∃ t, MessageType received = Some t ∧ 1 ≤ t ≤ 4
       ∧ Flags received = Z.lor (Flags wire) PacketFlagDeobfuscatedAfterReceived
       ∧ (t ≠ device.MessageTransportType → Length received = fixed_size t)
       ∧ (t ≠ device.MessageCookieReplyType → Go.index (Data received) 1 ≠ Some 0x01).
Proof.
  apply (Deobfuscate_marked obfs wire received).
  - vm_compute. discriminate.
  - vm_compute. discriminate.
  - vm_compute. reflexivity.
  - vm_compute. discriminate.
Defined.

Lemma modifyHashMask_stable_conflict :
  ∃ b' b0 b1 k0 k1,
    modifyHashMaskForWireGuardHeaderConflict [0; 1; 2; 3; 4; 5; 6; 7] = Some b'
    ∧ modifyHashMaskForWireGuardHeaderConflict b' = Some b'
    ∧ length b' = length [0; 1; 2; 3; 4; 5; 6; 7]
    ∧ (∀ j, 2 ≤ j → Go.index b' j = Go.index [0; 1; 2; 3; 4; 5; 6; 7] j)
    ∧ Go.index [0; 1; 2; 3; 4; 5; 6; 7] 0 = Some b0
    ∧ Go.index [0; 1; 2; 3; 4; 5; 6; 7] 1 = Some b1
    ∧ Go.index b' 0 = Some k0 ∧ Go.index b' 1 = Some k1
    ∧ Z.land k0 b0 = b0 ∧ Z.land k1 b1 = b1
    ∧ (¬ (Z.land b0 0xf8 = 0 ∧ Z.land b1 0xfe = 0) → b' = [0; 1; 2; 3; 4; 5; 6; 7]).
Proof. apply (modifyHashMask_stable [0; 1; 2; 3; 4; 5; 6; 7]). simpl. lia. Defined.

Lemma manglePacket_decodes_peer :
  ∃ out err,
    manglePacket peer [4; 0; 0; 0; 7] = Some (out, err)
    ∧ length out = length [4; 0; 0; 0; 7]
    ∧ ∀ j d, Go.index [4; 0; 0; 0; 7] j = Some d →
        ∃ w, Go.index out j = Some w
             ∧ Z.lxor w (key_byte peer j) = if j =? 1 then Go.byte (id peer) else d.
Proof.
  apply (manglePacket_decodes peer [4; 0; 0; 0; 7]).
  - simpl. lia.
  - discriminate.
Defined.

Lemma NewClientWithConfig_mangles_peer :
  0 ≤ ID client_config < 256
  ∧ id peer = ID client_config
  ∧ xorKey peer ≠ Some []
  ∧ ∃ out err w,
      manglePacket peer [4; 0; 0; 0; 7] = Some (out, err)
      ∧ Go.index out 1 = Some w
      ∧ Z.lxor w (key_byte peer 1) = ID client_config.
Proof.
  apply (NewClientWithConfig_mangles string resolve 256 client_config
           (mkNewClient string peer "192.0.2.1:1000"%string ":1000"%string)
           [4; 0; 0; 0; 7]).
  - vm_compute. reflexivity.
  - lia.
  - simpl. lia.
Defined.

Lemma Start_loop_forwards_reads :
  forward_calls string (Start_loop string peer "192.0.2.1:1000"%string reads).1
  = (λ d, (d.2, "192.0.2.1:1000"%string, mangled peer d.1))
      <$> filter (λ d, 4 ≤ length d.1)%nat (datagrams string reads)
  ∧ (Start_loop string peer "192.0.2.1:1000"%string reads).2
    = if decide (length (datagrams string reads) = length reads)
      then Reading else Returned None.
Proof.
  apply (Start_loop_forwards string peer "192.0.2.1:1000"%string reads).
  - discriminate.
  - repeat constructor.
Defined.

Lemma Start_loop_runt_reads :
  Start_loop string peer "192.0.2.1:1000"%string
    (take 3 reads ++ Datagram string [9] "203.0.113.9:9"%string None :: drop 3 reads)
  = ((Start_loop string peer "192.0.2.1:1000"%string (take 3 reads)).1, Panicked).
Proof.
  apply (Start_loop_runt string peer "192.0.2.1:1000"%string (take 3 reads) (drop 3 reads)
           [9] "203.0.113.9:9"%string None).
  - simpl. lia.
  - reflexivity.
Defined.

Lemma roundtrip_across_buffers_response :
  ∃ back,
    Deobfuscate obfs arrived = Some back
    ∧ Length back = Length response
    ∧ ∀ j, 0 ≤ j < Length response → Go.index (Data back) j = Go.index (Data response) j.
Proof.
  apply (roundtrip_across_buffers obfs rnd response wire arrived).
  - vm_compute. reflexivity.
  - vm_compute. reflexivity.
  - vm_compute. discriminate.
  - vm_compute. discriminate.
  - vm_compute. reflexivity.
  - reflexivity.
  - vm_compute. discriminate.
  - vm_compute. discriminate.
  - intros j Hj. apply index_take_app; [vm_compute; lia|lia].
Defined.
